(** * ecobee-exporter: the Prometheus collector of [collector/collector.go]

    A shallow embedding of the descriptor registry ([descs.new],
    [NewEcobeeCollector], [Describe]) and of one collection cycle
    ([Collect]), followed by the properties of the specification that
    concern them.

    The collector talks to four collaborators that are not part of the
    repository: the Go runtime (float64 arithmetic, [time], [strings],
    [strconv]), the ecobee API client, the Prometheus client library and
    the logrus logger.  Each one is modelled in a module of its own, by
    the part of its documented behaviour that [collector.go] relies on. *)

From Stdlib Require Import ZArith List String Ascii Bool Lia.
From Stdlib Require Import Floats.SpecFloat.
Import ListNotations.

Local Open Scope string_scope.
Local Open Scope list_scope.

(* ===================================================================== *)
(** ** The Go runtime                                                      *)
(* ===================================================================== *)

Module Go.

Local Open Scope Z_scope.

(** Go's [error] interface, observed through its message. *)
Definition error := string.

(** [float64] is IEEE 754 binary64.  The standard library's [spec_float]
    is an executable specification of it over binary integers: 53 bits
    of precision, infinities at exponent 1024, round to nearest even. *)
Definition float64 := spec_float.
Definition prec : Z := 53.
Definition emax : Z := 1024.

(** The conversion [float64(n)] of an integer. *)
Definition float64_of_int (n : Z) : float64 :=
  binary_normalize prec emax n 0 false.

(** [x / y] and [x + y] on float64. *)
Definition fdiv (x y : float64) : float64 := SFdiv prec emax x y.
Definition fadd (x y : float64) : float64 := SFadd prec emax x y.


(** The float constants that occur in the collector: [0.0], [1.0], [10]
    and the [1e9] of [Duration.Seconds]. *)
Definition f0 : float64 := float64_of_int 0.
Definition f1 : float64 := float64_of_int 1.
Definition f10 : float64 := float64_of_int 10.
Definition f1e9 : float64 := float64_of_int 1000000000.

(** Signed 64-bit wrap-around, for [int64] subtraction. *)
Definition wrap64 (z : Z) : Z :=
  ((z + 2 ^ 63) mod 2 ^ 64) - 2 ^ 63.

(** A [time.Time] as [time.Now()] returns it carries a monotonic clock
    reading, in nanoseconds; [Time.Sub] of two such values only looks at
    these readings.  That reading is all the model keeps. *)
Definition Time := Z.

(** [time.Duration]: an int64 count of nanoseconds. *)
Definition Duration := Z.
Definition maxDuration : Duration := 2 ^ 63 - 1.
Definition minDuration : Duration := - 2 ^ 63.
Definition Second : Duration := 1000000000.

(** [t.Sub(u)] on monotonic readings ([subMono] of package time): the
    wrapped difference, saturated on overflow. *)
Definition Sub (t u : Time) : Duration :=
  let d := wrap64 (t - u) in
  if (d <? 0) && (u <? t) then maxDuration
  else if (0 <? d) && (t <? u) then minDuration
  else d.

(** [d.Seconds()]:
    [sec := d / Second; nsec := d % Second;
     return float64(sec) + float64(nsec)/1e9].
    Go's [/] and [%] on integers truncate towards zero. *)
Definition Seconds (d : Duration) : float64 :=
  let sec := Z.quot d Second in
  let nsec := Z.rem d Second in
  fadd (float64_of_int sec) (fdiv (float64_of_int nsec) f1e9).

(** [utf8.ValidString(s)]: the bytes of [s] are well-formed UTF-8.  After
    a leading byte, [need] continuation bytes are expected, the next of
    them within [lo..hi] (which excludes overlong forms, surrogates and
    code points above U+10FFFF). *)
Fixpoint utf8_valid (s : string) (need lo hi : nat) : bool :=
  match s with
  | EmptyString => Nat.eqb need 0
  | String ch r =>
      let b := nat_of_ascii ch in
      match need with
      | O =>
          if Nat.ltb b 128 then utf8_valid r 0 128 191
          else if Nat.leb 194 b && Nat.leb b 223 then utf8_valid r 1 128 191
          else if Nat.eqb b 224 then utf8_valid r 2 160 191
          else if Nat.leb 225 b && Nat.leb b 236 then utf8_valid r 2 128 191
          else if Nat.eqb b 237 then utf8_valid r 2 128 159
          else if Nat.leb 238 b && Nat.leb b 239 then utf8_valid r 2 128 191
          else if Nat.eqb b 240 then utf8_valid r 3 144 191
          else if Nat.leb 241 b && Nat.leb b 243 then utf8_valid r 3 128 191
          else if Nat.eqb b 244 then utf8_valid r 3 128 143
          else false
      | S n =>
          if Nat.leb lo b && Nat.leb b hi then utf8_valid r n 128 191
          else false
      end
  end.

Definition ValidString (s : string) : bool := utf8_valid s 0 128 191.

(** [strings.Join(elems, sep)]. *)
Definition strings_Join (elems : list string) (sep : string) : string :=
  String.concat sep elems.

(** [fmt.Sprintf("%s_%s", a, b)]. *)
Definition Sprintf_s_s (a b : string) : string := a ++ "_" ++ b.

#[global] Arguments float64_of_int : simpl never.
#[global] Arguments fdiv : simpl never.
#[global] Arguments fadd : simpl never.
#[global] Arguments Sub : simpl never.
#[global] Arguments Seconds : simpl never.
#[global] Arguments f0 : simpl never.
#[global] Arguments f1 : simpl never.
#[global] Arguments f10 : simpl never.
#[global] Arguments f1e9 : simpl never.

End Go.

Import Go.

(* ===================================================================== *)
(** ** The ecobee API client (package go-ecobee)                           *)
(* ===================================================================== *)

Module ecobee.

(** The fields of [ecobee.Selection] that the collector sets; all the
    others keep their zero value. *)
Record Selection := {
  SelectionType : string;
  SelectionMatch : string;
  IncludeSensors : bool;
  IncludeRuntime : bool;
  IncludeSettings : bool;
  IncludeEquipmentStatus : bool
}.

(** The records of the API, each in a module of its own so that fields
    keep their Go names ([Typ] stands for the field [Type]). *)
Module RemoteSensorCapability.
Record t := {
  Typ : string;
  Value : string
}.
End RemoteSensorCapability.

Module RemoteSensor.
Record t := {
  ID : string;
  Name : string;
  Typ : string;
  InUse : bool;
  Capability : list RemoteSensorCapability.t
}.
End RemoteSensor.

(** Temperatures are ints, in tenths of a degree. *)
Module Runtime.
Record t := {
  Connected : bool;
  ActualTemperature : Z;
  DesiredHeat : Z;
  DesiredCool : Z
}.
End Runtime.

Module Settings.
Record t := {
  HvacMode : string
}.
End Settings.

Module Thermostat.
Record t := {
  Identifier : string;
  Name : string;
  Runtime : Runtime.t;
  Settings : Settings.t;
  RemoteSensors : list RemoteSensor.t
}.
End Thermostat.

Module EquipmentStatus.
Record t := {
  HeatPump : bool;
  CompCool1 : bool;
  AuxHeat1 : bool;
  Fan : bool
}.
End EquipmentStatus.

Module ThermostatSummary.
Record t := {
  Identifier : string;
  Name : string;
  EquipmentStatus : EquipmentStatus.t
}.
End ThermostatSummary.

(** What the two operations of [*ecobee.Client] answer to a selection:
    the Go pair (value, err).  A summary answer is given as the sequence
    of records in the order in which [range] visits them. *)
Record Client := {
  answer_GetThermostats : Selection -> list Thermostat.t * option error;
  answer_GetThermostatSummary :
    Selection -> list ThermostatSummary.t * option error
}.

(** A request as the API sees it. *)
Inductive Request :=
| ReqThermostats (sel : Selection)
| ReqThermostatSummary (sel : Selection).

End ecobee.

Import ecobee.

(* ===================================================================== *)
(** ** The Prometheus client library                                       *)
(* ===================================================================== *)

Module prometheus.

(** [*prometheus.Desc]: the fully-qualified name, the help text and the
    ordered names of the variable labels.  The error that the library
    records in a descriptor is a function of these names; it is [Desc_err]
    below. *)
Record Desc := {
  fqName : string;
  help : string;
  variableLabels : list string
}.

(** [prometheus.NewDesc(fqName, help, variableLabels, nil)]. *)
Definition NewDesc (fq hlp : string) (labels : list string) : Desc :=
  {| fqName := fq; help := hlp; variableLabels := labels |}.

Inductive ValueType := CounterValue | GaugeValue | UntypedValue.

(** A constant metric: a sample. *)
Record Metric := {
  desc : Desc;
  valType : ValueType;
  value : float64;
  labelValues : list string
}.

Definition errInconsistentCardinality : error :=
  "inconsistent label cardinality".

Definition errInvalidMetricName : error := "not a valid metric name".
Definition errInvalidLabelName : error := "not a valid label name".
Definition errDuplicateLabelNames : error := "duplicate label names".
Definition errInvalidUTF8 : error := "label value is not valid UTF-8".

(** The characters of a name: a letter or an underscore, a colon also in
    a metric name, a digit also after the first character. *)
Definition is_letter (b : nat) : bool :=
  (Nat.leb 65 b && Nat.leb b 90) || (Nat.leb 97 b && Nat.leb b 122)
  || Nat.eqb b 95.

Definition is_digit (b : nat) : bool := Nat.leb 48 b && Nat.leb b 57.

Fixpoint name_tail (colon : bool) (s : string) : bool :=
  match s with
  | EmptyString => true
  | String ch r =>
      let b := nat_of_ascii ch in
      (is_letter b || is_digit b || (colon && Nat.eqb b 58))
      && name_tail colon r
  end.

Definition name_valid (colon : bool) (s : string) : bool :=
  match s with
  | EmptyString => false
  | String ch r =>
      let b := nat_of_ascii ch in
      (is_letter b || (colon && Nat.eqb b 58)) && name_tail colon r
  end.

(** [model.IsValidMetricName], by the rule of the library that the
    collector was written against: the name matches
    [[a-zA-Z_:][a-zA-Z0-9_:]*]. *)
Definition IsValidMetricName (s : string) : bool := name_valid true s.

(** [checkLabelName]: the name matches [[a-zA-Z_][a-zA-Z0-9_]*] and does
    not start with two underscores. *)
Definition checkLabelName (s : string) : bool :=
  name_valid false s && negb (String.prefix "__" s).

Fixpoint has_duplicate (l : list string) : bool :=
  match l with
  | [] => false
  | x :: r => existsb (String.eqb x) r || has_duplicate r
  end.

(** The error that [NewDesc] records in the descriptor it returns: an
    invalid metric name, an invalid label name or a label name that
    occurs twice.  The library reports it when the collector is
    registered, and each time a metric is built from the descriptor. *)
Definition Desc_err (d : Desc) : option error :=
  if negb (IsValidMetricName (fqName d)) then Some errInvalidMetricName
  else if negb (forallb checkLabelName (variableLabels d))
  then Some errInvalidLabelName
  else if has_duplicate (variableLabels d) then Some errDuplicateLabelNames
  else None.

(** [prometheus.NewConstMetric]: the error of the descriptor if it has
    one; else an error when the number of label values is not the number
    of variable labels of the descriptor, or when a label value is not
    valid UTF-8; else the metric. *)
Definition NewConstMetric (d : Desc) (vt : ValueType) (v : float64)
    (lvs : list string) : option Metric * option error :=
  match Desc_err d with
  | Some err => (None, Some err)
  | None =>
      if negb (Nat.eqb (List.length lvs) (List.length (variableLabels d)))
      then (None, Some errInconsistentCardinality)
      else if negb (forallb ValidString lvs)
      then (None, Some errInvalidUTF8)
      else (Some {| desc := d; valType := vt; value := v;
                    labelValues := lvs |}, None)
  end.

(** [NewConstMetric] where its other checks pass, that is for a
    descriptor without error (the descriptor of a collector that has
    been registered) and label values that are valid UTF-8 (strings that
    the API client decoded from JSON): the number of label values is
    then the one thing that can be wrong. *)
Definition NewConstMetric_counted (d : Desc) (vt : ValueType) (v : float64)
    (lvs : list string) : option Metric * option error :=
  if Nat.eqb (List.length lvs) (List.length (variableLabels d))
  then (Some {| desc := d; valType := vt; value := v;
                labelValues := lvs |}, None)
  else (None, Some errInconsistentCardinality).

End prometheus.

Import prometheus.

(* ===================================================================== *)
(** ** The logger (package logrus)                                         *)
(* ===================================================================== *)

Module log.

(** One constructor per logging function that the collector calls.  A
    formatted entry keeps the format and its arguments side by side. *)
Inductive Entry :=
| Error (err : error)
| Errorf (format : string) (args : list string)
| Infof (format : string) (args : list string).

End log.

(* ===================================================================== *)
(** ** Effects                                                             *)
(* ===================================================================== *)

(** Everything a cycle does to the outside, in the order in which it does
    it: a value sent on the channel [ch], a log entry, a request to the
    API. *)
Inductive Event (T : Type) :=
| Sent (x : T)
| Logged (e : log.Entry)
| Called (r : Request).

Arguments Sent {T} x.
Arguments Logged {T} e.
Arguments Called {T} r.

(** The world a cycle runs in: the events so far, and how many times the
    clock has been read. *)
Record World (T : Type) := {
  events : list (Event T);
  ticks : nat
}.

Arguments events {T} w.
Arguments ticks {T} w.

(** A Go function call returns or panics. *)
Inductive Res (A : Type) :=
| Ok (a : A)
| Panic (msg : string).

Arguments Ok {A} a.
Arguments Panic {A} msg.

Definition M (T A : Type) : Type := World T -> World T * Res A.

Definition ret {T A} (a : A) : M T A := fun w => (w, Ok a).

Definition bind {T A B} (m : M T A) (k : A -> M T B) : M T B :=
  fun w =>
    match m w with
    | (w', Ok a) => k a w'
    | (w', Panic msg) => (w', Panic msg)
    end.

Declare Scope go_scope.
Delimit Scope go_scope with go.
Notation "x <- m ;; k" := (bind m (fun x => k))
  (at level 61, m at next level, right associativity) : go_scope.
Notation "m ;; k" := (bind m (fun _ => k))
  (at level 61, right associativity) : go_scope.
Local Open Scope go_scope.

Definition panic {T A} (msg : string) : M T A := fun w => (w, Panic msg).

(** Appending events to a world. *)
Definition record {T} (w : World T) (evs : list (Event T)) : World T :=
  {| events := events w ++ evs; ticks := ticks w |}.

Definition emit {T} (e : Event T) : M T unit :=
  fun w => (record w [e], Ok tt).

(** [ch <- x]. *)
Definition send {T} (x : T) : M T unit := emit (Sent x).

Definition log_Error {T} (err : error) : M T unit :=
  emit (Logged (log.Error err)).
Definition log_Errorf {T} (format : string) (args : list string) : M T unit :=
  emit (Logged (log.Errorf format args)).
Definition log_Infof {T} (format : string) (args : list string) : M T unit :=
  emit (Logged (log.Infof format args)).

(** [for _, x := range xs { body }]. *)
Fixpoint range {T A} (xs : list A) (body : A -> M T unit) : M T unit :=
  match xs with
  | [] => ret tt
  | x :: xs' => body x ;; range xs' body
  end.

(** [for i, x := range xs { s = body(i, x, s) }], for a loop that updates
    a local variable [s]; [i] is the index of the first element of [xs]. *)
Fixpoint range_from {T A L} (i : nat) (xs : list A)
    (body : nat -> A -> L -> M T L) (s : L) : M T L :=
  match xs with
  | [] => ret s
  | x :: xs' => s' <- body i x s ;; range_from (S i) xs' body s'
  end.

(** [make([]string, n)]. *)
Definition make_strings (n : nat) : list string := repeat "" n.

(** [s[i] = v] on a slice: a run-time panic when [i] is out of range. *)
Fixpoint set_index {A} (s : list A) (i : nat) (v : A) : option (list A) :=
  match s, i with
  | [], _ => None
  | _ :: s', O => Some (v :: s')
  | x :: s', S i' =>
      match set_index s' i' v with
      | Some r => Some (x :: r)
      | None => None
      end
  end.

Definition assign_index {T A} (s : list A) (i : nat) (v : A) : M T (list A) :=
  match set_index s i v with
  | Some s' => ret s'
  | None => panic "index out of range"
  end.

(** [MustNewConstMetric] panics where [NewConstMetric] returns an error
    ([NewConstMetric] returns a metric or an error, never neither). *)
Definition MustNewConstMetric {T} (d : Desc) (vt : ValueType) (v : float64)
    (lvs : list string) : M T Metric :=
  match NewConstMetric d vt v lvs with
  | (Some m, None) => ret m
  | (_, Some err) => panic err
  | (None, None) => panic "nil metric"
  end.

(** [MustNewConstMetric] where the other checks of [NewConstMetric]
    pass: see [NewConstMetric_counted]. *)
Definition MustNewConstMetric_counted {T} (d : Desc) (vt : ValueType)
    (v : float64) (lvs : list string) : M T Metric :=
  match NewConstMetric_counted d vt v lvs with
  | (Some m, None) => ret m
  | (_, Some err) => panic err
  | (None, None) => panic "nil metric"
  end.

(** The values sent and the requests issued in a list of events. *)
Fixpoint sent {T} (evs : list (Event T)) : list T :=
  match evs with
  | [] => []
  | Sent x :: r => x :: sent r
  | _ :: r => sent r
  end.

Fixpoint called {T} (evs : list (Event T)) : list Request :=
  match evs with
  | [] => []
  | Called q :: r => q :: called r
  | _ :: r => called r
  end.

(** The world before a cycle. *)
Definition start_world {T} : World T := {| events := []; ticks := 0 |}.

(* ===================================================================== *)
(** ** The collector                                                       *)
(* ===================================================================== *)

Definition descs := string.

(** [func (d descs) new(fqName, help string, variableLabels []string)]. *)
Definition descs_new (d : descs) (fqName help : string)
    (variableLabels : list string) : Desc :=
  NewDesc (Sprintf_s_s d fqName) help variableLabels.

Record eCollector := {
  client : Client;
  (* per-query descriptors *)
  fetchTime : Desc;
  (* runtime descriptors *)
  actualTemperature : Desc;
  targetTemperatureMin : Desc;
  targetTemperatureMax : Desc;
  (* sensor descriptors *)
  temperature : Desc;
  humidity : Desc;
  occupancy : Desc;
  inUse : Desc;
  currentHvacMode : Desc;
  fanStatus : Desc;
  mode : Desc
}.

(** [runtime] is a slice literal, of length and capacity 2, so that the
    [append] that builds [sensor] allocates: [runtime] is left as it is. *)
Definition NewEcobeeCollector (c : Client) (metricPrefix : string)
    : eCollector :=
  let d : descs := metricPrefix in
  let runtime := ["thermostat_id"; "thermostat_name"] in
  let sensor := runtime ++ ["sensor_id"; "sensor_name"; "sensor_type"] in
  {| client := c;
     fetchTime :=
       descs_new d "fetch_time"
         "elapsed time fetching data via Ecobee API" [];
     actualTemperature :=
       descs_new d "actual_temperature"
         "thermostat-averaged current temperature" runtime;
     targetTemperatureMax :=
       descs_new d "target_temperature_max"
         "maximum temperature for thermostat to maintain" runtime;
     targetTemperatureMin :=
       descs_new d "target_temperature_min"
         "minimum temperature for thermostat to maintain" runtime;
     temperature :=
       descs_new d "temperature"
         "temperature reported by a sensor in degrees" sensor;
     humidity :=
       descs_new d "humidity"
         "humidity reported by a sensor in percent" sensor;
     occupancy :=
       descs_new d "occupancy"
         "occupancy reported by a sensor (0 or 1)" sensor;
     inUse :=
       descs_new d "in_use"
         "is sensor being used in thermostat calculations (0 or 1)" sensor;
     currentHvacMode :=
       descs_new d "currenthvacmode"
         "current hvac mode of thermostat"
         ["thermostat_id"; "thermostat_name"; "current_hvac_mode"];
     fanStatus :=
       descs_new d "fan_status"
         "current status of the fan"
         ["thermostat_id"; "thermostat_name"];
     mode :=
       descs_new d "mode"
         "current operating mode"
         ["thermostat_id"; "thermostat_name"; "mode"] |}.

(** [Describe] dumps all metric descriptors into [ch]. *)
Definition Describe (c : eCollector) : M Desc unit :=
  send (fetchTime c) ;;
  send (actualTemperature c) ;;
  send (targetTemperatureMax c) ;;
  send (targetTemperatureMin c) ;;
  send (temperature c) ;;
  send (humidity c) ;;
  send (occupancy c) ;;
  send (inUse c) ;;
  send (currentHvacMode c) ;;
  send (fanStatus c) ;;
  send (mode c).

(** The samples are built with [MustNewConstMetric_counted]: the cycle of
    a collector whose descriptors are valid, as registration requires,
    fed with label values that are valid UTF-8.  The module [Strict]
    below is the same code with [MustNewConstMetric]; the two cycles are
    related further down ([Strict_Collect_runs]). *)
Section Collect.

(** [strconv.ParseFloat(s, 64)], as the Go pair (value, err). *)
Variable ParseFloat : string -> float64 * option error.

(** The monotonic clock: [now n] is its reading at the [n]-th call of
    [time.Now()] in the cycle, counting from 0. *)
Variable now : nat -> Time.

Definition time_Now {T} : M T Time :=
  fun w => ({| events := events w; ticks := S (ticks w) |},
            Ok (now (ticks w))).

Definition GetThermostats {T} (cl : Client) (sel : Selection)
    : M T (list Thermostat.t * option error) :=
  emit (Called (ReqThermostats sel)) ;;
  ret (answer_GetThermostats cl sel).

Definition GetThermostatSummary {T} (cl : Client) (sel : Selection)
    : M T (list ThermostatSummary.t * option error) :=
  emit (Called (ReqThermostatSummary sel)) ;;
  ret (answer_GetThermostatSummary cl sel).

(** The body of [for _, sc := range s.Capability] (lines 211-243). *)
Definition Collect_capability (c : eCollector) (sFields : list string)
    (sc : RemoteSensorCapability.t) : M Metric unit :=
  if RemoteSensorCapability.Typ sc =? "temperature" then
    match ParseFloat (RemoteSensorCapability.Value sc) with
    | (v, None) =>
        m <- MustNewConstMetric_counted (temperature c) GaugeValue
               (fdiv v f10) sFields ;;
        send m
    | (_, Some err) => log_Error err
    end
  else if RemoteSensorCapability.Typ sc =? "humidity" then
    match ParseFloat (RemoteSensorCapability.Value sc) with
    | (v, None) =>
        m <- MustNewConstMetric_counted (humidity c) GaugeValue v sFields ;;
        send m
    | (_, Some err) => log_Error err
    end
  else if RemoteSensorCapability.Typ sc =? "occupancy" then
    if RemoteSensorCapability.Value sc =? "true" then
      m <- MustNewConstMetric_counted (occupancy c) GaugeValue f1 sFields ;;
      send m
    else if RemoteSensorCapability.Value sc =? "false" then
      m <- MustNewConstMetric_counted (occupancy c) GaugeValue f0 sFields ;;
      send m
    else
      log_Errorf "unknown sensor occupancy value %q"
        [RemoteSensorCapability.Value sc]
  else
    log_Infof "ignoring sensor capability %q"
      [RemoteSensorCapability.Typ sc].

(** The body of [for _, s := range t.RemoteSensors] (lines 202-244).
    [tFields] has length and capacity 2, so [append] allocates a fresh
    [sFields] for each sensor. *)
Definition Collect_sensor (c : eCollector) (tFields : list string)
    (s : RemoteSensor.t) : M Metric unit :=
  let sFields :=
    tFields ++ [RemoteSensor.ID s; RemoteSensor.Name s;
                RemoteSensor.Typ s] in
  let inUse_ := if RemoteSensor.InUse s then f1 else f0 in
  m <- MustNewConstMetric_counted (inUse c) GaugeValue inUse_ sFields ;;
  send m ;;
  range (RemoteSensor.Capability s) (Collect_capability c sFields).

(** The four samples of a connected thermostat (lines 188-199). *)
Definition Collect_runtime (c : eCollector) (tFields : list string)
    (t : Thermostat.t) : M Metric unit :=
  m <- MustNewConstMetric_counted (actualTemperature c) GaugeValue
         (fdiv (float64_of_int
                  (Runtime.ActualTemperature (Thermostat.Runtime t))) f10)
         tFields ;;
  send m ;;
  m <- MustNewConstMetric_counted (targetTemperatureMax c) GaugeValue
         (fdiv (float64_of_int
                  (Runtime.DesiredCool (Thermostat.Runtime t))) f10)
         tFields ;;
  send m ;;
  m <- MustNewConstMetric_counted (targetTemperatureMin c) GaugeValue
         (fdiv (float64_of_int
                  (Runtime.DesiredHeat (Thermostat.Runtime t))) f10)
         tFields ;;
  send m ;;
  m <- MustNewConstMetric_counted (currentHvacMode c) GaugeValue f0
         [Thermostat.Identifier t; Thermostat.Name t;
          Settings.HvacMode (Thermostat.Settings t)] ;;
  send m.

(** The body of [for _, t := range tt] (lines 186-245). *)
Definition Collect_thermostat (c : eCollector) (t : Thermostat.t)
    : M Metric unit :=
  let tFields := [Thermostat.Identifier t; Thermostat.Name t] in
  (if Runtime.Connected (Thermostat.Runtime t)
   then Collect_runtime c tFields t
   else ret tt) ;;
  range (Thermostat.RemoteSensors t) (Collect_sensor c tFields).

(** The body of [for _, t := range ts] (lines 156-183). *)
Definition Collect_summary (c : eCollector) (t : ThermostatSummary.t)
    : M Metric unit :=
  let st := ThermostatSummary.EquipmentStatus t in
  let fanStatus_ := if EquipmentStatus.Fan st then f1 else f0 in
  let coolStatus := if EquipmentStatus.CompCool1 st then f1 else f0 in
  let heatStatus := if EquipmentStatus.HeatPump st then f1 else f0 in
  let auxStatus := if EquipmentStatus.AuxHeat1 st then f1 else f0 in
  m <- MustNewConstMetric_counted (fanStatus c) GaugeValue fanStatus_
         [ThermostatSummary.Identifier t; ThermostatSummary.Name t] ;;
  send m ;;
  m <- MustNewConstMetric_counted (mode c) GaugeValue coolStatus
         [ThermostatSummary.Identifier t; ThermostatSummary.Name t;
          "cool"] ;;
  send m ;;
  m <- MustNewConstMetric_counted (mode c) GaugeValue heatStatus
         [ThermostatSummary.Identifier t; ThermostatSummary.Name t;
          "heat"] ;;
  send m ;;
  m <- MustNewConstMetric_counted (mode c) GaugeValue auxStatus
         [ThermostatSummary.Identifier t; ThermostatSummary.Name t;
          "aux"] ;;
  send m.

(** The two selections of a cycle. *)
Definition selection_registered : Selection :=
  {| SelectionType := "registered";
     SelectionMatch := "";
     IncludeSensors := true;
     IncludeRuntime := true;
     IncludeSettings := true;
     IncludeEquipmentStatus := false |}.

Definition selection_thermostats (ids : list string) : Selection :=
  {| SelectionType := "thermostats";
     SelectionMatch := strings_Join ids ",";
     IncludeSensors := false;
     IncludeRuntime := false;
     IncludeSettings := false;
     IncludeEquipmentStatus := true |}.

(** [Collect] retrieves thermostat data via the ecobee API.  The Go
    variables [tt] and [ts] are [thermostats] and [summaries] here; a
    [return] ends the function with [ret tt]. *)
Definition Collect (c : eCollector) : M Metric unit :=
  start <- time_Now ;;
  r <- GetThermostats (client c) selection_registered ;;
  let '(thermostats, err) := r in
  match err with
  | Some e => log_Error e
  | None =>
      ids <- range_from 0 thermostats
               (fun i t ids => assign_index ids i (Thermostat.Identifier t))
               (make_strings (List.length thermostats)) ;;
      r <- GetThermostatSummary (client c) (selection_thermostats ids) ;;
      let '(summaries, err) := r in
      match err with
      | Some e => log_Error e
      | None =>
          t1 <- time_Now ;;
          let elapsed := Sub t1 start in
          m <- MustNewConstMetric_counted (fetchTime c) GaugeValue
                 (Seconds elapsed) [] ;;
          send m ;;
          range summaries (Collect_summary c) ;;
          range thermostats (Collect_thermostat c)
      end
  end.

End Collect.

(** *** The collector and the constructor with all its checks

    [Collect] and its loop bodies above build their samples with
    [MustNewConstMetric_counted].  The module [Strict] is the same code
    with [MustNewConstMetric], the constructor of the library with all its
    checks, for a collector that may not have been registered and label
    values that may be any bytes. *)

Module Strict.

Section Collect.

Variable ParseFloat : string -> float64 * option error.
Variable now : nat -> Time.

(** The body of [for _, sc := range s.Capability] (lines 211-243). *)
Definition Collect_capability (c : eCollector) (sFields : list string)
    (sc : RemoteSensorCapability.t) : M Metric unit :=
  if RemoteSensorCapability.Typ sc =? "temperature" then
    match ParseFloat (RemoteSensorCapability.Value sc) with
    | (v, None) =>
        m <- MustNewConstMetric (temperature c) GaugeValue
               (fdiv v f10) sFields ;;
        send m
    | (_, Some err) => log_Error err
    end
  else if RemoteSensorCapability.Typ sc =? "humidity" then
    match ParseFloat (RemoteSensorCapability.Value sc) with
    | (v, None) =>
        m <- MustNewConstMetric (humidity c) GaugeValue v sFields ;;
        send m
    | (_, Some err) => log_Error err
    end
  else if RemoteSensorCapability.Typ sc =? "occupancy" then
    if RemoteSensorCapability.Value sc =? "true" then
      m <- MustNewConstMetric (occupancy c) GaugeValue f1 sFields ;;
      send m
    else if RemoteSensorCapability.Value sc =? "false" then
      m <- MustNewConstMetric (occupancy c) GaugeValue f0 sFields ;;
      send m
    else
      log_Errorf "unknown sensor occupancy value %q"
        [RemoteSensorCapability.Value sc]
  else
    log_Infof "ignoring sensor capability %q"
      [RemoteSensorCapability.Typ sc].

(** The body of [for _, s := range t.RemoteSensors] (lines 202-244).
    [tFields] has length and capacity 2, so [append] allocates a fresh
    [sFields] for each sensor. *)
Definition Collect_sensor (c : eCollector) (tFields : list string)
    (s : RemoteSensor.t) : M Metric unit :=
  let sFields :=
    tFields ++ [RemoteSensor.ID s; RemoteSensor.Name s;
                RemoteSensor.Typ s] in
  let inUse_ := if RemoteSensor.InUse s then f1 else f0 in
  m <- MustNewConstMetric (inUse c) GaugeValue inUse_ sFields ;;
  send m ;;
  range (RemoteSensor.Capability s) (Collect_capability c sFields).

(** The four samples of a connected thermostat (lines 188-199). *)
Definition Collect_runtime (c : eCollector) (tFields : list string)
    (t : Thermostat.t) : M Metric unit :=
  m <- MustNewConstMetric (actualTemperature c) GaugeValue
         (fdiv (float64_of_int
                  (Runtime.ActualTemperature (Thermostat.Runtime t))) f10)
         tFields ;;
  send m ;;
  m <- MustNewConstMetric (targetTemperatureMax c) GaugeValue
         (fdiv (float64_of_int
                  (Runtime.DesiredCool (Thermostat.Runtime t))) f10)
         tFields ;;
  send m ;;
  m <- MustNewConstMetric (targetTemperatureMin c) GaugeValue
         (fdiv (float64_of_int
                  (Runtime.DesiredHeat (Thermostat.Runtime t))) f10)
         tFields ;;
  send m ;;
  m <- MustNewConstMetric (currentHvacMode c) GaugeValue f0
         [Thermostat.Identifier t; Thermostat.Name t;
          Settings.HvacMode (Thermostat.Settings t)] ;;
  send m.

(** The body of [for _, t := range tt] (lines 186-245). *)
Definition Collect_thermostat (c : eCollector) (t : Thermostat.t)
    : M Metric unit :=
  let tFields := [Thermostat.Identifier t; Thermostat.Name t] in
  (if Runtime.Connected (Thermostat.Runtime t)
   then Collect_runtime c tFields t
   else ret tt) ;;
  range (Thermostat.RemoteSensors t) (Collect_sensor c tFields).

(** The body of [for _, t := range ts] (lines 156-183). *)
Definition Collect_summary (c : eCollector) (t : ThermostatSummary.t)
    : M Metric unit :=
  let st := ThermostatSummary.EquipmentStatus t in
  let fanStatus_ := if EquipmentStatus.Fan st then f1 else f0 in
  let coolStatus := if EquipmentStatus.CompCool1 st then f1 else f0 in
  let heatStatus := if EquipmentStatus.HeatPump st then f1 else f0 in
  let auxStatus := if EquipmentStatus.AuxHeat1 st then f1 else f0 in
  m <- MustNewConstMetric (fanStatus c) GaugeValue fanStatus_
         [ThermostatSummary.Identifier t; ThermostatSummary.Name t] ;;
  send m ;;
  m <- MustNewConstMetric (mode c) GaugeValue coolStatus
         [ThermostatSummary.Identifier t; ThermostatSummary.Name t;
          "cool"] ;;
  send m ;;
  m <- MustNewConstMetric (mode c) GaugeValue heatStatus
         [ThermostatSummary.Identifier t; ThermostatSummary.Name t;
          "heat"] ;;
  send m ;;
  m <- MustNewConstMetric (mode c) GaugeValue auxStatus
         [ThermostatSummary.Identifier t; ThermostatSummary.Name t;
          "aux"] ;;
  send m.

(** [Collect]. *)
Definition Collect (c : eCollector) : M Metric unit :=
  start <- time_Now now ;;
  r <- GetThermostats (client c) selection_registered ;;
  let '(thermostats, err) := r in
  match err with
  | Some e => log_Error e
  | None =>
      ids <- range_from 0 thermostats
               (fun i t ids => assign_index ids i (Thermostat.Identifier t))
               (make_strings (List.length thermostats)) ;;
      r <- GetThermostatSummary (client c) (selection_thermostats ids) ;;
      let '(summaries, err) := r in
      match err with
      | Some e => log_Error e
      | None =>
          t1 <- time_Now now ;;
          let elapsed := Sub t1 start in
          m <- MustNewConstMetric (fetchTime c) GaugeValue
                 (Seconds elapsed) [] ;;
          send m ;;
          range summaries (Collect_summary c) ;;
          range thermostats (Collect_thermostat c)
      end
  end.


End Collect.

End Strict.

(* ===================================================================== *)
(** ** Vocabulary of the properties                                        *)
(* ===================================================================== *)

(** A sample of type gauge, as [MustNewConstMetric] builds it. *)
Definition gauge (d : Desc) (v : float64) (lvs : list string) : Metric :=
  {| desc := d; valType := GaugeValue; value := v; labelValues := lvs |}.

(** The events of an action that is run from the start. *)
Definition run_events {T A} (m : M T A) : list (Event T) :=
  events (fst (m start_world)).

(** [adds m evs r]: from any world, [m] adds the events [evs], reads no
    clock and ends with [r]. *)
Definition adds {T A} (m : M T A) (evs : list (Event T)) (r : Res A) : Prop :=
  forall w, m w = (record w evs, r).

(** [returns m]: [m] adds its events and returns, it does not panic. *)
Definition returns {T} (m : M T unit) : Prop :=
  adds m (run_events m) (Ok tt).

(** The label values of a sensor sample: [sFields]. *)
Definition sensor_fields (tFields : list string) (s : RemoteSensor.t)
    : list string :=
  tFields ++ [RemoteSensor.ID s; RemoteSensor.Name s; RemoteSensor.Typ s].

(** The [inUse] sample of a sensor. *)
Definition inUse_sample (c : eCollector) (tFields : list string)
    (s : RemoteSensor.t) : Metric :=
  gauge (inUse c) (if RemoteSensor.InUse s then f1 else f0)
    (sensor_fields tFields s).


(** The label values of a thermostat sample: [tFields]. *)
Definition thermostat_fields (t : Thermostat.t) : list string :=
  [Thermostat.Identifier t; Thermostat.Name t].

(** The four samples of a thermostat that is connected. *)
Definition runtime_samples (c : eCollector) (t : Thermostat.t)
    : list Metric :=
  [ gauge (actualTemperature c)
      (fdiv (float64_of_int
               (Runtime.ActualTemperature (Thermostat.Runtime t))) f10)
      [Thermostat.Identifier t; Thermostat.Name t];
    gauge (targetTemperatureMax c)
      (fdiv (float64_of_int
               (Runtime.DesiredCool (Thermostat.Runtime t))) f10)
      [Thermostat.Identifier t; Thermostat.Name t];
    gauge (targetTemperatureMin c)
      (fdiv (float64_of_int
               (Runtime.DesiredHeat (Thermostat.Runtime t))) f10)
      [Thermostat.Identifier t; Thermostat.Name t];
    gauge (currentHvacMode c) f0
      [Thermostat.Identifier t; Thermostat.Name t;
       Settings.HvacMode (Thermostat.Settings t)] ].

(** The events of one iteration of the loop over the capabilities. *)
Definition capability_events (ParseFloat : string -> float64 * option error)
    (c : eCollector) (sFields : list string) (sc : RemoteSensorCapability.t)
    : list (Event Metric) :=
  run_events (Collect_capability ParseFloat c sFields sc).

(** The events of one iteration of the loop over the sensors: the [inUse]
    sample, then the events of the capabilities. *)
Definition sensor_events (ParseFloat : string -> float64 * option error)
    (c : eCollector) (tFields : list string) (s : RemoteSensor.t)
    : list (Event Metric) :=
  Sent (inUse_sample c tFields s)
  :: flat_map (capability_events ParseFloat c (sensor_fields tFields s))
       (RemoteSensor.Capability s).

(** The events of one iteration of the loop over the thermostats: the
    four samples when the thermostat is connected, then the events of its
    sensors. *)
Definition thermostat_head (c : eCollector) (t : Thermostat.t)
    : list (Event Metric) :=
  if Runtime.Connected (Thermostat.Runtime t)
  then map Sent (runtime_samples c t) else [].

Definition thermostat_events (ParseFloat : string -> float64 * option error)
    (c : eCollector) (t : Thermostat.t) : list (Event Metric) :=
  thermostat_head c t
  ++ flat_map (sensor_events ParseFloat c (thermostat_fields t))
       (Thermostat.RemoteSensors t).

(** The four samples of a summary record. *)
Definition summary_samples (c : eCollector) (t : ThermostatSummary.t)
    : list Metric :=
  let st := ThermostatSummary.EquipmentStatus t in
  [ gauge (fanStatus c) (if EquipmentStatus.Fan st then f1 else f0)
      [ThermostatSummary.Identifier t; ThermostatSummary.Name t];
    gauge (mode c) (if EquipmentStatus.CompCool1 st then f1 else f0)
      [ThermostatSummary.Identifier t; ThermostatSummary.Name t; "cool"];
    gauge (mode c) (if EquipmentStatus.HeatPump st then f1 else f0)
      [ThermostatSummary.Identifier t; ThermostatSummary.Name t; "heat"];
    gauge (mode c) (if EquipmentStatus.AuxHeat1 st then f1 else f0)
      [ThermostatSummary.Identifier t; ThermostatSummary.Name t; "aux"] ].

(** The [fetchTime] sample of a cycle that starts in world [w]: the time
    between the first two readings of the clock from there. *)
Definition fetchTime_sample (now : nat -> Time) (c : eCollector)
    (w : World Metric) : Metric :=
  gauge (fetchTime c) (Seconds (Sub (now (S (ticks w))) (now (ticks w)))) [].

(** The two requests of a cycle. *)
Definition request_thermostats : Request :=
  ReqThermostats selection_registered.

Definition request_summary (thermostats : list Thermostat.t) : Request :=
  ReqThermostatSummary
    (selection_thermostats (map Thermostat.Identifier thermostats)).

(** The events of one iteration of the loop over the summary records. *)
Definition summary_events (c : eCollector) (t : ThermostatSummary.t)
    : list (Event Metric) :=
  map Sent (summary_samples c t).

(** The events of a cycle whose two calls succeed, up to the loop over
    the thermostats, and as a whole. *)
Definition cycle_head (now : nat -> Time) (c : eCollector) (w : World Metric)
    (thermostats : list Thermostat.t) (summaries : list ThermostatSummary.t)
    : list (Event Metric) :=
  [Called request_thermostats;
   Called (request_summary thermostats);
   Sent (fetchTime_sample now c w)]
  ++ flat_map (summary_events c) summaries.

Definition cycle_events (ParseFloat : string -> float64 * option error)
    (now : nat -> Time) (c : eCollector) (w : World Metric)
    (thermostats : list Thermostat.t) (summaries : list ThermostatSummary.t)
    : list (Event Metric) :=
  cycle_head now c w thermostats summaries
  ++ flat_map (thermostat_events ParseFloat c) thermostats.

(** The world after a cycle that added [evs] and read the clock [n] times. *)
Definition after {T} (w : World T) (evs : list (Event T)) (n : nat)
    : World T :=
  {| events := events w ++ evs; ticks := n + ticks w |}.


Definition sensor_descs (c : eCollector) : list Desc :=
  [inUse c; temperature c; humidity c; occupancy c].



(** The label names of a sample, each with its value. *)
Definition labelling (m : Metric) : list (string * string) :=
  combine (variableLabels (desc m)) (labelValues m).

(** The labellings that the schemas allow in a cycle that fetched
    [thermostats] and [summaries]. *)
Inductive well_labelled (thermostats : list Thermostat.t)
    (summaries : list ThermostatSummary.t) (m : Metric) : Prop :=
| labelled_none :
    labelling m = [] ->
    well_labelled thermostats summaries m
| labelled_runtime t :
    In t thermostats ->
    labelling m = [("thermostat_id", Thermostat.Identifier t);
                   ("thermostat_name", Thermostat.Name t)] ->
    well_labelled thermostats summaries m
| labelled_hvac_mode t :
    In t thermostats ->
    labelling m = [("thermostat_id", Thermostat.Identifier t);
                   ("thermostat_name", Thermostat.Name t);
                   ("current_hvac_mode",
                    Settings.HvacMode (Thermostat.Settings t))] ->
    well_labelled thermostats summaries m
| labelled_sensor t s :
    In t thermostats ->
    In s (Thermostat.RemoteSensors t) ->
    labelling m = [("thermostat_id", Thermostat.Identifier t);
                   ("thermostat_name", Thermostat.Name t);
                   ("sensor_id", RemoteSensor.ID s);
                   ("sensor_name", RemoteSensor.Name s);
                   ("sensor_type", RemoteSensor.Typ s)] ->
    well_labelled thermostats summaries m
| labelled_fan t :
    In t summaries ->
    labelling m = [("thermostat_id", ThermostatSummary.Identifier t);
                   ("thermostat_name", ThermostatSummary.Name t)] ->
    well_labelled thermostats summaries m
| labelled_mode t md :
    In t summaries ->
    In md ["cool"; "heat"; "aux"] ->
    labelling m = [("thermostat_id", ThermostatSummary.Identifier t);
                   ("thermostat_name", ThermostatSummary.Name t);
                   ("mode", md)] ->
    well_labelled thermostats summaries m.

(** A sample has as many label values as its descriptor has names. *)
Definition consistent (m : Metric) : Prop :=
  List.length (labelValues m) = List.length (variableLabels (desc m)).

(** The descriptors that [Describe] sends, from a fresh world. *)
Definition described (c : eCollector) : list Desc :=
  sent (run_events (Describe c)).

(** The eleven metric suffixes, in the order of [Describe]. *)
Definition metric_suffixes : list string :=
  ["fetch_time"; "actual_temperature"; "target_temperature_max";
   "target_temperature_min"; "temperature"; "humidity"; "occupancy";
   "in_use"; "currenthvacmode"; "fan_status"; "mode"].


(** The descriptors of a registry carry no error: what the registration
    of the collector checks. *)
Definition registry_valid (c : eCollector) : bool :=
  forallb (fun d => match Desc_err d with None => true | Some _ => false end)
    (described c).

(** The strings of the API answers that become label values are valid
    UTF-8. *)
Definition sensor_utf8 (s : RemoteSensor.t) : bool :=
  ValidString (RemoteSensor.ID s) && ValidString (RemoteSensor.Name s)
  && ValidString (RemoteSensor.Typ s).

Definition thermostat_utf8 (t : Thermostat.t) : bool :=
  ValidString (Thermostat.Identifier t) && ValidString (Thermostat.Name t)
  && ValidString (Settings.HvacMode (Thermostat.Settings t))
  && forallb sensor_utf8 (Thermostat.RemoteSensors t).

Definition summary_utf8 (t : ThermostatSummary.t) : bool :=
  ValidString (ThermostatSummary.Identifier t)
  && ValidString (ThermostatSummary.Name t).

Definition answers_utf8 (thermostats : list Thermostat.t)
    (summaries : list ThermostatSummary.t) : bool :=
  forallb thermostat_utf8 thermostats && forallb summary_utf8 summaries.

(** [refines V p' p]: the program [p'] does what [p] does when [V] holds;
    in any case it does what [p] does, or panics after a first part of
    the events of [p], on an error that is not the one of the label
    count. *)
Definition refines (V : Prop) (p' p : M Metric unit) : Prop :=
  forall w,
    (V -> p' w = p w)
    /\ (p' w = p w
        \/ exists pre post e,
             run_events p = pre ++ post
             /\ p' w = (record w pre, Panic e)
             /\ e <> errInconsistentCardinality).

(* ===================================================================== *)
(** ** Sample data                                                         *)
(* ===================================================================== *)

Module Sample.

(** Stands for [strconv.ParseFloat] on the strings of the samples: a
    string of decimal digits is the float64 of its number, anything else
    is a syntax error. *)
Fixpoint digits (s : string) (acc : Z) : option Z :=
  match s with
  | EmptyString => Some acc
  | String ch r =>
      let n := nat_of_ascii ch in
      if (48 <=? n)%nat && (n <=? 57)%nat
      then digits r (10 * acc + Z.of_nat (n - 48))%Z
      else None
  end.

Definition ParseFloat (s : string) : float64 * option error :=
  match s with
  | EmptyString => (f0, Some "invalid syntax")
  | _ =>
      match digits s 0 with
      | Some z => (float64_of_int z, None)
      | None => (f0, Some "invalid syntax")
      end
  end.

(** A clock that advances by a second and a half between two readings. *)
Definition clock (n : nat) : Time := (Z.of_nat n * 1500000000)%Z.

Definition capabilities : list RemoteSensorCapability.t :=
  [ {| RemoteSensorCapability.Typ := "temperature";
       RemoteSensorCapability.Value := "725" |};
    {| RemoteSensorCapability.Typ := "temperature";
       RemoteSensorCapability.Value := "abc" |};
    {| RemoteSensorCapability.Typ := "humidity";
       RemoteSensorCapability.Value := "41" |};
    {| RemoteSensorCapability.Typ := "occupancy";
       RemoteSensorCapability.Value := "true" |};
    {| RemoteSensorCapability.Typ := "occupancy";
       RemoteSensorCapability.Value := "maybe" |};
    {| RemoteSensorCapability.Typ := "airQuality";
       RemoteSensorCapability.Value := "3" |} ].

Definition bedroom : RemoteSensor.t :=
  {| RemoteSensor.ID := "rs:100";
     RemoteSensor.Name := "Bedroom";
     RemoteSensor.Typ := "ecobee3_remote_sensor";
     RemoteSensor.InUse := true;
     RemoteSensor.Capability := capabilities |}.

Definition hallway : RemoteSensor.t :=
  {| RemoteSensor.ID := "ei:0";
     RemoteSensor.Name := "Hallway";
     RemoteSensor.Typ := "thermostat";
     RemoteSensor.InUse := false;
     RemoteSensor.Capability :=
       [ {| RemoteSensorCapability.Typ := "occupancy";
            RemoteSensorCapability.Value := "false" |} ] |}.

Definition home : Thermostat.t :=
  {| Thermostat.Identifier := "311019854321";
     Thermostat.Name := "Home";
     Thermostat.Runtime :=
       {| Runtime.Connected := true;
          Runtime.ActualTemperature := 705;
          Runtime.DesiredHeat := 680;
          Runtime.DesiredCool := 760 |};
     Thermostat.Settings := {| Settings.HvacMode := "heat" |};
     Thermostat.RemoteSensors := [bedroom; hallway] |}.

Definition cabin : Thermostat.t :=
  {| Thermostat.Identifier := "411920954322";
     Thermostat.Name := "Cabin";
     Thermostat.Runtime :=
       {| Runtime.Connected := false;
          Runtime.ActualTemperature := 0;
          Runtime.DesiredHeat := 0;
          Runtime.DesiredCool := 0 |};
     Thermostat.Settings := {| Settings.HvacMode := "off" |};
     Thermostat.RemoteSensors := [hallway] |}.

Definition home_summary : ThermostatSummary.t :=
  {| ThermostatSummary.Identifier := "311019854321";
     ThermostatSummary.Name := "Home";
     ThermostatSummary.EquipmentStatus :=
       {| EquipmentStatus.HeatPump := false;
          EquipmentStatus.CompCool1 := true;
          EquipmentStatus.AuxHeat1 := false;
          EquipmentStatus.Fan := true |} |}.

(** Both calls succeed. *)
Definition client_up : Client :=
  {| answer_GetThermostats := fun _ => ([home; cabin], None);
     answer_GetThermostatSummary := fun _ => ([home_summary], None) |}.

(** The first call fails. *)
Definition client_down : Client :=
  {| answer_GetThermostats := fun _ => ([], Some "401 Unauthorized");
     answer_GetThermostatSummary := fun _ => ([], Some "401 Unauthorized") |}.

(** The first call succeeds, the second one fails. *)
Definition client_summary_down : Client :=
  {| answer_GetThermostats := fun _ => ([home; cabin], None);
     answer_GetThermostatSummary := fun _ => ([], Some "503 Unavailable") |}.



(** A registry that is not the one of [NewEcobeeCollector]: its [mode]
    descriptor declares two labels only. *)
Definition miswired : eCollector :=
  let c := NewEcobeeCollector client_up "ecobee" in
  {| client := client c;
     fetchTime := fetchTime c;
     actualTemperature := actualTemperature c;
     targetTemperatureMin := targetTemperatureMin c;
     targetTemperatureMax := targetTemperatureMax c;
     temperature := temperature c;
     humidity := humidity c;
     occupancy := occupancy c;
     inUse := inUse c;
     currentHvacMode := currentHvacMode c;
     fanStatus := fanStatus c;
     mode := descs_new "ecobee" "mode" "current operating mode"
               ["thermostat_id"; "thermostat_name"] |}.

End Sample.

(* ===================================================================== *)
(** ** Vocabulary of the further properties                                *)
(* ===================================================================== *)







(** The events of a successful cycle after the [fetchTime] sample. *)
Definition cycle_tail (ParseFloat : string -> float64 * option error)
    (c : eCollector) (thermostats : list Thermostat.t)
    (summaries : list ThermostatSummary.t) : list (Event Metric) :=
  flat_map (summary_events c) summaries
  ++ flat_map (thermostat_events ParseFloat c) thermostats.

(* ===================================================================== *)
(** ** Reasoning about effects                                             *)
(* ===================================================================== *)

Lemma record_nil {T} (w : World T) : record w [] = w.
Proof.
  destruct w as [evs n]. unfold record. simpl. now rewrite app_nil_r.
Qed.

Lemma record_record {T} (w : World T) (a b : list (Event T)) :
  record (record w a) b = record w (a ++ b).
Proof.
  unfold record. simpl. now rewrite app_assoc.
Qed.

Lemma adds_ret {T A} (a : A) : adds (@ret T A a) [] (Ok a).
Proof.
  intros w. unfold ret. now rewrite record_nil.
Qed.

Lemma adds_panic {T A} (msg : string) : adds (@panic T A msg) [] (Panic msg).
Proof.
  intros w. unfold panic. now rewrite record_nil.
Qed.

Lemma adds_emit {T} (e : Event T) : adds (emit e) [e] (Ok tt).
Proof.
  intros w. reflexivity.
Qed.

Lemma adds_bind {T A B} (m : M T A) (k : A -> M T B) e1 a e2 r :
  adds m e1 (Ok a) -> adds (k a) e2 r -> adds (bind m k) (e1 ++ e2) r.
Proof.
  intros Hm Hk w. unfold bind. rewrite Hm, Hk. now rewrite record_record.
Qed.

Lemma adds_events {T A} (m : M T A) evs r : adds m evs r -> run_events m = evs.
Proof.
  intros H. unfold run_events. rewrite H. reflexivity.
Qed.

Lemma adds_returns {T} (m : M T unit) evs : adds m evs (Ok tt) -> returns m.
Proof.
  intros H. unfold returns. now rewrite (adds_events _ _ _ H).
Qed.

(** Sequencing two actions that return. *)
Lemma adds_seq {T B} (m : M T unit) (k : M T B) e r :
  returns m -> adds k e r -> adds (m ;; k) (run_events m ++ e) r.
Proof.
  intros Hm Hk. eapply adds_bind; [exact Hm | exact Hk].
Qed.

(** A [range] loop whose body returns on every element returns, and its
    events are those of the iterations, in order. *)
Lemma adds_range {T A} (xs : list A) (body : A -> M T unit) :
  (forall x, In x xs -> returns (body x)) ->
  adds (range xs body) (flat_map (fun x => run_events (body x)) xs) (Ok tt).
Proof.
  induction xs as [|x xs IH]; intros Hbody; simpl.
  - apply adds_ret.
  - apply adds_seq.
    + apply Hbody. now left.
    + apply IH. intros y Hy. apply Hbody. now right.
Qed.

Lemma returns_range {T A} (xs : list A) (body : A -> M T unit) :
  (forall x, In x xs -> returns (body x)) -> returns (range xs body).
Proof.
  intros H. eapply adds_returns. now apply adds_range.
Qed.

Lemma run_events_range {T A} (xs : list A) (body : A -> M T unit) :
  (forall x, In x xs -> returns (body x)) ->
  run_events (range xs body) = flat_map (fun x => run_events (body x)) xs.
Proof.
  intros H. eapply adds_events. now apply adds_range.
Qed.

(** [ch <- MustNewConstMetric(d, GaugeValue, v, lvs...)] sends the sample
    when [lvs] has as many values as [d] has label names... *)
Lemma adds_sample (d : Desc) (v : float64) (lvs : list string) :
  List.length lvs = List.length (variableLabels d) ->
  adds (m <- MustNewConstMetric_counted d GaugeValue v lvs ;; send m)
       [Sent (gauge d v lvs)] (Ok tt).
Proof.
  intros Hlen. change [Sent (gauge d v lvs)] with ([] ++ [Sent (gauge d v lvs)]).
  eapply adds_bind.
  - unfold MustNewConstMetric_counted, NewConstMetric_counted.
    rewrite (proj2 (Nat.eqb_eq _ _) Hlen). apply adds_ret.
  - apply adds_emit.
Qed.

(** ... and panics when it has not. *)
Lemma adds_sample_panic (d : Desc) (v : float64) (lvs : list string) :
  List.length lvs <> List.length (variableLabels d) ->
  adds (m <- MustNewConstMetric_counted d GaugeValue v lvs ;; send m)
       [] (Panic errInconsistentCardinality).
Proof.
  intros Hlen w. unfold bind, MustNewConstMetric_counted, NewConstMetric_counted.
  rewrite (proj2 (Nat.eqb_neq _ _) Hlen). unfold panic.
  now rewrite record_nil.
Qed.

(** [sent] and [called] distribute over concatenation. *)
Lemma sent_app {T} (a b : list (Event T)) : sent (a ++ b) = sent a ++ sent b.
Proof.
  induction a as [|[x|e|q] a IH]; simpl; now rewrite ?IH.
Qed.

Lemma called_app {T} (a b : list (Event T)) :
  called (a ++ b) = called a ++ called b.
Proof.
  induction a as [|[x|e|q] a IH]; simpl; now rewrite ?IH.
Qed.


(** The loop that fills [ids]: it never indexes out of range, and leaves
    the identifiers in the order of the thermostats. *)
Lemma set_index_middle {A} (done rest : list A) (old v : A) :
  set_index (done ++ old :: rest) (List.length done) v
  = Some (done ++ v :: rest).
Proof.
  induction done as [|x done IH]; simpl; [reflexivity|].
  now rewrite IH.
Qed.

Lemma adds_fill_ids {T A} (f : A -> string) (xs : list A) :
  forall (done rest : list string),
    List.length rest = List.length xs ->
    adds (T := T)
         (range_from (List.length done) xs
            (fun i t ids => assign_index ids i (f t)) (done ++ rest))
         [] (Ok (done ++ map f xs)).
Proof.
  induction xs as [|x xs IH]; intros done rest Hlen.
  - destruct rest; [|discriminate]. simpl. apply adds_ret.
  - destruct rest as [|old rest]; [discriminate|].
    simpl. change (@nil (Event T)) with (@nil (Event T) ++ []).
    eapply adds_bind.
    + unfold assign_index. rewrite set_index_middle. apply adds_ret.
    + replace (done ++ f x :: rest) with ((done ++ [f x]) ++ rest)
        by now rewrite <- app_assoc.
      replace (S (List.length done)) with (List.length (done ++ [f x]))
        by (rewrite length_app; simpl; lia).
      replace (done ++ f x :: map f xs) with ((done ++ [f x]) ++ map f xs)
        by now rewrite <- app_assoc.
      apply IH. simpl in Hlen. lia.
Qed.

Lemma adds_ids {T} (thermostats : list Thermostat.t) :
  adds (T := T)
       (range_from 0 thermostats
          (fun i t ids => assign_index ids i (Thermostat.Identifier t))
          (make_strings (List.length thermostats)))
       [] (Ok (map Thermostat.Identifier thermostats)).
Proof.
  apply (adds_fill_ids Thermostat.Identifier thermostats []).
  unfold make_strings. apply repeat_length.
Qed.

Lemma adds_sample_then {B} (d : Desc) (v : float64) (lvs : list string)
    (k : M Metric B) e r :
  List.length lvs = List.length (variableLabels d) ->
  adds k e r ->
  adds (m <- MustNewConstMetric_counted d GaugeValue v lvs ;; send m ;; k)
       (Sent (gauge d v lvs) :: e) r.
Proof.
  intros Hlen Hk w. unfold bind at 1.
  unfold MustNewConstMetric_counted, NewConstMetric_counted.
  rewrite (proj2 (Nat.eqb_eq _ _) Hlen). unfold ret at 1.
  unfold bind, send, emit. rewrite Hk, record_record. reflexivity.
Qed.

(** Peels the samples of a straight-line block, one send at a time. *)
Ltac samples :=
  repeat first
    [ apply adds_sample_then; [reflexivity|]
    | apply adds_sample; reflexivity
    | apply adds_emit
    | apply adds_ret ].

Section CollectFacts.

Variable ParseFloat : string -> float64 * option error.
Variable now : nat -> Time.
Variable cl : Client.
Variable prefix : string.

Local Abbreviation c := (NewEcobeeCollector cl prefix).

(** *** One capability *)

Lemma capability_temperature_ok sFields sc v :
  List.length sFields = 5 ->
  RemoteSensorCapability.Typ sc = "temperature" ->
  ParseFloat (RemoteSensorCapability.Value sc) = (v, None) ->
  adds (Collect_capability ParseFloat c sFields sc)
       [Sent (gauge (temperature c) (fdiv v f10) sFields)] (Ok tt).
Proof.
  intros Hlen Hty Hparse. unfold Collect_capability.
  rewrite Hty, Hparse. change ("temperature" =? "temperature") with true.
  cbv iota. apply adds_sample. exact Hlen.
Qed.

Lemma capability_temperature_err sFields sc v err :
  RemoteSensorCapability.Typ sc = "temperature" ->
  ParseFloat (RemoteSensorCapability.Value sc) = (v, Some err) ->
  adds (Collect_capability ParseFloat c sFields sc) [Logged (log.Error err)] (Ok tt).
Proof.
  intros Hty Hparse. unfold Collect_capability.
  rewrite Hty, Hparse. change ("temperature" =? "temperature") with true.
  cbv iota. apply adds_emit.
Qed.

Lemma capability_humidity_ok sFields sc v :
  List.length sFields = 5 ->
  RemoteSensorCapability.Typ sc = "humidity" ->
  ParseFloat (RemoteSensorCapability.Value sc) = (v, None) ->
  adds (Collect_capability ParseFloat c sFields sc)
       [Sent (gauge (humidity c) v sFields)] (Ok tt).
Proof.
  intros Hlen Hty Hparse. unfold Collect_capability.
  rewrite Hty, Hparse. change ("humidity" =? "temperature") with false.
  change ("humidity" =? "humidity") with true.
  cbv iota. apply adds_sample. exact Hlen.
Qed.

Lemma capability_humidity_err sFields sc v err :
  RemoteSensorCapability.Typ sc = "humidity" ->
  ParseFloat (RemoteSensorCapability.Value sc) = (v, Some err) ->
  adds (Collect_capability ParseFloat c sFields sc) [Logged (log.Error err)] (Ok tt).
Proof.
  intros Hty Hparse. unfold Collect_capability.
  rewrite Hty, Hparse. change ("humidity" =? "temperature") with false.
  change ("humidity" =? "humidity") with true.
  cbv iota. apply adds_emit.
Qed.

Lemma capability_occupancy_true sFields sc :
  List.length sFields = 5 ->
  RemoteSensorCapability.Typ sc = "occupancy" ->
  RemoteSensorCapability.Value sc = "true" ->
  adds (Collect_capability ParseFloat c sFields sc)
       [Sent (gauge (occupancy c) f1 sFields)] (Ok tt).
Proof.
  intros Hlen Hty Hval. unfold Collect_capability.
  rewrite Hty, Hval. change ("occupancy" =? "temperature") with false.
  change ("occupancy" =? "humidity") with false.
  change ("occupancy" =? "occupancy") with true.
  change ("true" =? "true") with true.
  cbv iota. apply adds_sample. exact Hlen.
Qed.

Lemma capability_occupancy_false sFields sc :
  List.length sFields = 5 ->
  RemoteSensorCapability.Typ sc = "occupancy" ->
  RemoteSensorCapability.Value sc = "false" ->
  adds (Collect_capability ParseFloat c sFields sc)
       [Sent (gauge (occupancy c) f0 sFields)] (Ok tt).
Proof.
  intros Hlen Hty Hval. unfold Collect_capability.
  rewrite Hty, Hval. change ("occupancy" =? "temperature") with false.
  change ("occupancy" =? "humidity") with false.
  change ("occupancy" =? "occupancy") with true.
  change ("false" =? "true") with false.
  change ("false" =? "false") with true.
  cbv iota. apply adds_sample. exact Hlen.
Qed.

Lemma capability_occupancy_other sFields sc :
  RemoteSensorCapability.Typ sc = "occupancy" ->
  RemoteSensorCapability.Value sc <> "true" ->
  RemoteSensorCapability.Value sc <> "false" ->
  adds (Collect_capability ParseFloat c sFields sc)
       [Logged (log.Errorf "unknown sensor occupancy value %q"
                  [RemoteSensorCapability.Value sc])] (Ok tt).
Proof.
  intros Hty Ht Hf. unfold Collect_capability.
  rewrite Hty. change ("occupancy" =? "temperature") with false.
  change ("occupancy" =? "humidity") with false.
  change ("occupancy" =? "occupancy") with true.
  rewrite (proj2 (String.eqb_neq _ _) Ht), (proj2 (String.eqb_neq _ _) Hf).
  cbv iota. apply adds_emit.
Qed.

Lemma capability_other sFields sc :
  RemoteSensorCapability.Typ sc <> "temperature" ->
  RemoteSensorCapability.Typ sc <> "humidity" ->
  RemoteSensorCapability.Typ sc <> "occupancy" ->
  adds (Collect_capability ParseFloat c sFields sc)
       [Logged (log.Infof "ignoring sensor capability %q"
                  [RemoteSensorCapability.Typ sc])] (Ok tt).
Proof.
  intros H1 H2 H3. unfold Collect_capability.
  rewrite (proj2 (String.eqb_neq _ _) H1), (proj2 (String.eqb_neq _ _) H2),
    (proj2 (String.eqb_neq _ _) H3).
  apply adds_emit.
Qed.

(** Whatever the capability, its iteration returns, with at most one
    event: the loop goes on to the next one. *)
Lemma capability_cases sFields sc :
  List.length sFields = 5 ->
  exists e, adds (Collect_capability ParseFloat c sFields sc) [e] (Ok tt).
Proof.
  intros Hlen.
  destruct (String.eqb_spec (RemoteSensorCapability.Typ sc) "temperature")
    as [Ht|Ht].
  { destruct (ParseFloat (RemoteSensorCapability.Value sc)) as [v [err|]] eqn:E;
      eexists.
    - eapply capability_temperature_err; eassumption.
    - eapply capability_temperature_ok; eassumption. }
  destruct (String.eqb_spec (RemoteSensorCapability.Typ sc) "humidity")
    as [Hh|Hh].
  { destruct (ParseFloat (RemoteSensorCapability.Value sc)) as [v [err|]] eqn:E;
      eexists.
    - eapply capability_humidity_err; eassumption.
    - eapply capability_humidity_ok; eassumption. }
  destruct (String.eqb_spec (RemoteSensorCapability.Typ sc) "occupancy")
    as [Ho|Ho].
  { destruct (String.eqb_spec (RemoteSensorCapability.Value sc) "true")
      as [Hvt|Hvt].
    { eexists. eapply capability_occupancy_true; eassumption. }
    destruct (String.eqb_spec (RemoteSensorCapability.Value sc) "false")
      as [Hvf|Hvf].
    { eexists. eapply capability_occupancy_false; eassumption. }
    eexists. eapply capability_occupancy_other; eassumption. }
  eexists. eapply capability_other; eassumption.
Qed.

Lemma capability_returns sFields sc :
  List.length sFields = 5 -> returns (Collect_capability ParseFloat c sFields sc).
Proof.
  intros Hlen. destruct (capability_cases sFields sc Hlen) as [e He].
  eapply adds_returns. exact He.
Qed.

(** *** One sensor *)

Lemma sensor_adds tFields s :
  List.length tFields = 2 ->
  adds (Collect_sensor ParseFloat c tFields s)
       (sensor_events ParseFloat c tFields s) (Ok tt).
Proof.
  intros Hlen. unfold Collect_sensor, sensor_events, capability_events.
  assert (H5 : List.length (sensor_fields tFields s) = 5).
  { unfold sensor_fields. rewrite length_app, Hlen. reflexivity. }
  apply adds_sample_then.
  - exact H5.
  - apply adds_range. intros sc _. now apply capability_returns.
Qed.

Lemma sensor_returns tFields s :
  List.length tFields = 2 -> returns (Collect_sensor ParseFloat c tFields s).
Proof.
  intros Hlen. eapply adds_returns. now apply sensor_adds.
Qed.

Lemma sensor_run_events tFields s :
  List.length tFields = 2 ->
  run_events (Collect_sensor ParseFloat c tFields s)
  = sensor_events ParseFloat c tFields s.
Proof.
  intros Hlen. eapply adds_events. now apply sensor_adds.
Qed.

(** *** One thermostat *)

Lemma runtime_adds t :
  adds (Collect_runtime c (thermostat_fields t) t)
       (map Sent (runtime_samples c t)) (Ok tt).
Proof.
  unfold Collect_runtime, runtime_samples, thermostat_fields. simpl map.
  samples.
Qed.

Lemma thermostat_adds t :
  adds (Collect_thermostat ParseFloat c t) (thermostat_events ParseFloat c t) (Ok tt).
Proof.
  unfold Collect_thermostat, thermostat_events, thermostat_head.
  eapply adds_bind.
  - destruct (Runtime.Connected (Thermostat.Runtime t)).
    + apply runtime_adds.
    + apply adds_ret.
  - rewrite <- (flat_map_ext _ _
                  (fun s => sensor_run_events (thermostat_fields t) s eq_refl)).
    apply adds_range. intros s _. now apply sensor_returns.
Qed.

Lemma thermostat_returns t : returns (Collect_thermostat ParseFloat c t).
Proof.
  eapply adds_returns. apply thermostat_adds.
Qed.

Lemma thermostat_run_events t :
  run_events (Collect_thermostat ParseFloat c t) = thermostat_events ParseFloat c t.
Proof.
  eapply adds_events. apply thermostat_adds.
Qed.

(** *** One summary record *)

Lemma summary_adds t :
  adds (Collect_summary c t) (summary_events c t) (Ok tt).
Proof.
  unfold Collect_summary, summary_events, summary_samples. simpl map.
  samples.
Qed.

Lemma summary_returns t : returns (Collect_summary c t).
Proof.
  eapply adds_returns. apply summary_adds.
Qed.

Lemma summary_run_events t :
  run_events (Collect_summary c t) = summary_events c t.
Proof.
  eapply adds_events. apply summary_adds.
Qed.

(** *** The cycle *)

Lemma adds_GetThermostats {T} sel :
  adds (T := T) (GetThermostats cl sel) [Called (ReqThermostats sel)]
       (Ok (answer_GetThermostats cl sel)).
Proof.
  intros w. reflexivity.
Qed.

Lemma adds_GetThermostatSummary {T} sel :
  adds (T := T) (GetThermostatSummary cl sel)
       [Called (ReqThermostatSummary sel)]
       (Ok (answer_GetThermostatSummary cl sel)).
Proof.
  intros w. reflexivity.
Qed.

Lemma bind_time_Now {T B} (k : Time -> M T B) (w : World T) :
  bind (time_Now now) k w
  = k (now (ticks w)) {| events := events w; ticks := S (ticks w) |}.
Proof.
  reflexivity.
Qed.

Lemma bind_adds {T A B} (m : M T A) (k : A -> M T B) evs a (w : World T) :
  adds m evs (Ok a) -> bind m k w = k a (record w evs).
Proof.
  intros H. unfold bind. now rewrite H.
Qed.

Lemma after_record {T} (w : World T) n evs evs' :
  record (after w evs n) evs' = after w (evs ++ evs') n.
Proof.
  unfold record, after. simpl. now rewrite app_assoc.
Qed.

Lemma tick_after {T} (w : World T) n evs :
  {| events := events (after w evs n); ticks := S (ticks (after w evs n)) |}
  = after w evs (S n).
Proof.
  reflexivity.
Qed.

Lemma tick_start {T} (w : World T) :
  {| events := events w; ticks := S (ticks w) |} = after w [] 1.
Proof.
  unfold after. simpl. now rewrite app_nil_r.
Qed.

(** The first call fails: one request, one error in the log, no sample. *)
Lemma Collect_first_fails thermostats e :
  answer_GetThermostats cl selection_registered = (thermostats, Some e) ->
  forall w,
    Collect ParseFloat now c w
    = (after w [Called request_thermostats; Logged (log.Error e)] 1, Ok tt).
Proof.
  intros H1 w. unfold Collect.
  rewrite bind_time_Now.
  rewrite tick_start.
  rewrite (bind_adds _ _ _ _ _ (adds_GetThermostats _)), after_record.
  simpl client. rewrite H1.
  unfold log_Error. rewrite adds_emit, after_record. reflexivity.
Qed.

(** The first call succeeds and the second one fails: two requests, one
    error in the log, no sample. *)
Lemma Collect_second_fails thermostats summaries e :
  answer_GetThermostats cl selection_registered = (thermostats, None) ->
  answer_GetThermostatSummary cl
    (selection_thermostats (map Thermostat.Identifier thermostats))
  = (summaries, Some e) ->
  forall w,
    Collect ParseFloat now c w
    = (after w [Called request_thermostats;
                Called (request_summary thermostats);
                Logged (log.Error e)] 1, Ok tt).
Proof.
  intros H1 H2 w. unfold Collect.
  rewrite bind_time_Now.
  rewrite tick_start.
  rewrite (bind_adds _ _ _ _ _ (adds_GetThermostats _)), after_record.
  simpl client. rewrite H1.
  rewrite (bind_adds _ _ _ _ _ (adds_ids _)), after_record.
  rewrite (bind_adds _ _ _ _ _ (adds_GetThermostatSummary _)), after_record.
  rewrite H2.
  unfold log_Error. rewrite adds_emit, after_record. reflexivity.
Qed.

(** Both calls succeed: the two requests, the [fetchTime] sample, then the
    events of every summary record and of every thermostat, in order. *)
Lemma Collect_succeeds thermostats summaries :
  answer_GetThermostats cl selection_registered = (thermostats, None) ->
  answer_GetThermostatSummary cl
    (selection_thermostats (map Thermostat.Identifier thermostats))
  = (summaries, None) ->
  forall w,
    Collect ParseFloat now c w
    = (after w (cycle_events ParseFloat now c w thermostats summaries) 2,
       Ok tt).
Proof.
  intros H1 H2 w. unfold Collect.
  rewrite bind_time_Now.
  rewrite tick_start.
  rewrite (bind_adds _ _ _ _ _ (adds_GetThermostats _)), after_record.
  simpl client. rewrite H1.
  rewrite (bind_adds _ _ _ _ _ (adds_ids _)), after_record.
  rewrite (bind_adds _ _ _ _ _ (adds_GetThermostatSummary _)), after_record.
  rewrite H2.
  rewrite bind_time_Now, tick_after. cbv zeta.
  assert (A : forall v,
    adds (m <- MustNewConstMetric_counted (fetchTime c) GaugeValue v [] ;;
          send m ;;
          range summaries (Collect_summary c) ;;
          range thermostats (Collect_thermostat ParseFloat c))
         (Sent (gauge (fetchTime c) v [])
          :: flat_map (summary_events c) summaries
          ++ flat_map (thermostat_events ParseFloat c) thermostats)
         (Ok tt)).
  { intros v. apply adds_sample_then; [reflexivity|].
    eapply adds_bind.
    - rewrite <- (flat_map_ext _ _ summary_run_events).
      apply adds_range. intros t _. apply summary_returns.
    - rewrite <- (flat_map_ext _ _ thermostat_run_events).
      apply adds_range. intros t _. apply thermostat_returns. }
  rewrite A, after_record. reflexivity.
Qed.

End CollectFacts.

(* ===================================================================== *)
(** ** Signs of float64 results                                            *)
(* ===================================================================== *)

Section Signs.

Local Open Scope Z_scope.














End Signs.

(* ===================================================================== *)
(** ** Failing calls                                                       *)
(* ===================================================================== *)

(** C1, as the specification states it, fails: when the first call
    succeeds and the second one fails, the cycle ends without a sample;
    the [fetchTime] sample is sent only after both calls. *)
Lemma second_call_fails_one_sample_counterexample :
  let c := NewEcobeeCollector Sample.client_summary_down "ecobee" in
  let r := Collect Sample.ParseFloat Sample.clock c start_world in
  snd (answer_GetThermostats Sample.client_summary_down selection_registered)
  = None
  /\ snd (answer_GetThermostatSummary Sample.client_summary_down
            (selection_thermostats
               (map Thermostat.Identifier [Sample.home; Sample.cabin])))
     = Some "503 Unavailable"
  /\ sent (events (fst r)) = []
  /\ List.length (sent (events (fst r))) <> 1.
Proof.
  repeat split; try reflexivity. vm_compute. discriminate.
Qed.

(** C1 (amended): in every cycle in which the first call succeeds and the
    second call fails, Collect sends no sample at all: it issues the two
    requests, logs the error of the second one and returns. *)
Theorem second_call_fails_no_sample
    (ParseFloat : string -> float64 * option error) (now : nat -> Time)
    (cl : Client) (prefix : string)
    (thermostats : list Thermostat.t) (summaries : list ThermostatSummary.t)
    (e : error) (w : World Metric) :
  answer_GetThermostats cl selection_registered = (thermostats, None) ->
  answer_GetThermostatSummary cl
    (selection_thermostats (map Thermostat.Identifier thermostats))
  = (summaries, Some e) ->
  let evs := [Called request_thermostats;
              Called (request_summary thermostats);
              Logged (log.Error e)] in
  Collect ParseFloat now (NewEcobeeCollector cl prefix) w
  = (after w evs 1, Ok tt)
  /\ sent evs = [].
Proof.
  intros H1 H2 evs. split; [|reflexivity].
  eapply Collect_second_fails; eassumption.
Qed.

Lemma second_call_fails_no_sample_witness :
  Collect Sample.ParseFloat Sample.clock
    (NewEcobeeCollector Sample.client_summary_down "ecobee") start_world
  = (after start_world
       [Called request_thermostats;
        Called (request_summary [Sample.home; Sample.cabin]);
        Logged (log.Error "503 Unavailable")] 1, Ok tt)
  /\ sent [Called request_thermostats;
           Called (request_summary [Sample.home; Sample.cabin]);
           Logged (log.Error "503 Unavailable") (T := Metric)] = [].
Proof.
  exact (second_call_fails_no_sample Sample.ParseFloat Sample.clock
           Sample.client_summary_down "ecobee" [Sample.home; Sample.cabin] []
           "503 Unavailable" start_world eq_refl eq_refl).
Defined.

(** C2: in every cycle in which the first call fails, Collect sends no
    sample; it logs the error and returns to its caller ([Ok tt]: no
    panic), without issuing the second request. *)
Theorem first_call_fails_no_sample
    (ParseFloat : string -> float64 * option error) (now : nat -> Time)
    (cl : Client) (prefix : string)
    (thermostats : list Thermostat.t) (e : error) (w : World Metric) :
  answer_GetThermostats cl selection_registered = (thermostats, Some e) ->
  let evs := [Called request_thermostats; Logged (log.Error e)] in
  Collect ParseFloat now (NewEcobeeCollector cl prefix) w
  = (after w evs 1, Ok tt)
  /\ sent evs = [].
Proof.
  intros H1 evs. split; [|reflexivity].
  eapply Collect_first_fails; eassumption.
Qed.

Lemma first_call_fails_no_sample_witness :
  Collect Sample.ParseFloat Sample.clock
    (NewEcobeeCollector Sample.client_down "ecobee") start_world
  = (after start_world
       [Called request_thermostats;
        Logged (log.Error "401 Unauthorized")] 1, Ok tt)
  /\ sent [Called request_thermostats;
           Logged (log.Error "401 Unauthorized") (T := Metric)] = [].
Proof.
  exact (first_call_fails_no_sample Sample.ParseFloat Sample.clock
           Sample.client_down "ecobee" [] "401 Unauthorized" start_world
           eq_refl).
Defined.

(* ===================================================================== *)
(** ** Summary records                                                     *)
(* ===================================================================== *)



(* ===================================================================== *)
(** ** A cycle without thermostats                                         *)
(* ===================================================================== *)




(* ===================================================================== *)
(** ** The descriptor registry                                             *)
(* ===================================================================== *)

Lemma length_append (a b : string) :
  String.length (a ++ b) = String.length a + String.length b.
Proof.
  induction a as [|ch a IH]; simpl; [reflexivity|]. now rewrite IH.
Qed.

Lemma append_cancel_r (x : string) :
  forall p q : string, (p ++ x = q ++ x)%string -> p = q.
Proof.
  induction p as [|a p IH]; destruct q as [|b q]; simpl; intros H.
  - reflexivity.
  - apply (f_equal String.length) in H. simpl in H.
    rewrite length_append in H. lia.
  - apply (f_equal String.length) in H. simpl in H.
    rewrite length_append in H. lia.
  - injection H as Hab Hpq. subst b. f_equal. now apply IH.
Qed.

(** A metric has different names under different prefixes. *)
Lemma descs_new_injective (p q fq hlp hlp' : string) (ls ls' : list string) :
  p <> q -> fqName (descs_new p fq hlp ls) <> fqName (descs_new q fq hlp' ls').
Proof.
  intros Hpq E. apply Hpq. simpl in E. unfold Sprintf_s_s in E.
  now apply append_cancel_r in E.
Qed.

Lemma adds_send_then {T B} (x : T) (k : M T B) e r :
  adds k e r -> adds (send x ;; k) (Sent x :: e) r.
Proof.
  intros Hk. apply (adds_bind _ _ [Sent x] tt e r); [apply adds_emit|exact Hk].
Qed.

Lemma described_eq (c : eCollector) :
  described c
  = [fetchTime c; actualTemperature c; targetTemperatureMax c;
     targetTemperatureMin c; temperature c; humidity c; occupancy c;
     inUse c; currentHvacMode c; fanStatus c; mode c].
Proof.
  reflexivity.
Qed.

Lemma Describe_adds (c : eCollector) :
  adds (Describe c) (map Sent (described c)) (Ok tt).
Proof.
  rewrite described_eq. unfold Describe. simpl map.
  repeat apply adds_send_then. apply adds_emit.
Qed.

(** C8, as the specification states it, fails: the prefixes [x] and
    [x_actual] are distinct, and the name [x_actual_temperature] belongs
    to both registries (the thermostat temperature of the first one, the
    sensor temperature of the second one). *)
Lemma distinct_prefixes_share_name_counterexample :
  "x" <> "x_actual"
  /\ fqName (actualTemperature (NewEcobeeCollector Sample.client_up "x"))
     = "x_actual_temperature"
  /\ fqName (temperature (NewEcobeeCollector Sample.client_up "x_actual"))
     = "x_actual_temperature"
  /\ In "x_actual_temperature"
       (map fqName (described (NewEcobeeCollector Sample.client_up "x")))
  /\ In "x_actual_temperature"
       (map fqName
          (described (NewEcobeeCollector Sample.client_up "x_actual"))).
Proof.
  split; [discriminate|].
  split; [reflexivity|]. split; [reflexivity|].
  split; vm_compute; tauto.
Qed.

(** C8 (amended): for every prefix the constructor returns a registry;
    Describe sends its eleven descriptors and nothing else (no request to
    the API, no clock reading); the name of each descriptor is the prefix,
    an underscore and the metric suffix; so, under distinct prefixes, the
    descriptors of one and the same metric have distinct names. *)
Theorem registry_descriptors (cl cl' : Client) (prefix prefix' : string)
    (w : World Desc) :
  prefix <> prefix' ->
  let c := NewEcobeeCollector cl prefix in
  let c' := NewEcobeeCollector cl' prefix' in
  Describe c w = (record w (map Sent (described c)), Ok tt)
  /\ called (events (fst (Describe c w))) = called (events w)
  /\ ticks (fst (Describe c w)) = ticks w
  /\ List.length (described c) = 11
  /\ map fqName (described c)
     = map (fun suffix => prefix ++ "_" ++ suffix)%string metric_suffixes
  /\ Forall2 (fun d d' => fqName d <> fqName d') (described c) (described c').
Proof.
  intros Hneq c c'.
  split; [apply Describe_adds|].
  split.
  { rewrite Describe_adds. simpl fst. unfold record. simpl events.
    rewrite called_app. simpl. now rewrite app_nil_r. }
  split; [reflexivity|]. split; [reflexivity|]. split; [reflexivity|].
  rewrite !described_eq.
  repeat (apply Forall2_cons; [now apply descs_new_injective|]).
  apply Forall2_nil.
Qed.

Lemma registry_descriptors_witness :
  let c := NewEcobeeCollector Sample.client_up "x" in
  let c' := NewEcobeeCollector Sample.client_down "x_actual" in
  Describe c start_world
  = (record start_world (map Sent (described c)), Ok tt)
  /\ called (events (fst (Describe c start_world)))
     = called (events (start_world (T := Desc)))
  /\ ticks (fst (Describe c start_world)) = ticks (start_world (T := Desc))
  /\ List.length (described c) = 11
  /\ map fqName (described c)
     = map (fun suffix => "x" ++ "_" ++ suffix)%string metric_suffixes
  /\ Forall2 (fun d d' => fqName d <> fqName d') (described c) (described c').
Proof.
  apply (registry_descriptors Sample.client_up Sample.client_down
           "x" "x_actual" start_world).
  discriminate.
Defined.

(* ===================================================================== *)
(** ** Thermostats and their sensors                                       *)
(* ===================================================================== *)

Section Thermostats.

Variable ParseFloat : string -> float64 * option error.
Variable now : nat -> Time.
Variable cl : Client.
Variable prefix : string.

Local Abbreviation c := (NewEcobeeCollector cl prefix).

(** The iteration over a capability adds one event: a sample of one of
    the three capability descriptors, labelled [sFields], or a log entry. *)
Lemma capability_events_shape sFields sc :
  List.length sFields = 5 ->
  (exists d v, In d [temperature c; humidity c; occupancy c]
               /\ capability_events ParseFloat c sFields sc
                  = [Sent (gauge d v sFields)])
  \/ (exists l, capability_events ParseFloat c sFields sc = [Logged l]).
Proof.
  intros Hlen. unfold capability_events.
  destruct (String.eqb_spec (RemoteSensorCapability.Typ sc) "temperature")
    as [Ht|Ht].
  { destruct (ParseFloat (RemoteSensorCapability.Value sc)) as [v [err|]] eqn:E.
    - right. eexists. eapply adds_events.
      eapply capability_temperature_err; eassumption.
    - left. exists (temperature c), (fdiv v f10). split; [simpl; tauto|].
      eapply adds_events. eapply capability_temperature_ok; eassumption. }
  destruct (String.eqb_spec (RemoteSensorCapability.Typ sc) "humidity")
    as [Hh|Hh].
  { destruct (ParseFloat (RemoteSensorCapability.Value sc)) as [v [err|]] eqn:E.
    - right. eexists. eapply adds_events.
      eapply capability_humidity_err; eassumption.
    - left. exists (humidity c), v. split; [simpl; tauto|].
      eapply adds_events. eapply capability_humidity_ok; eassumption. }
  destruct (String.eqb_spec (RemoteSensorCapability.Typ sc) "occupancy")
    as [Ho|Ho].
  { destruct (String.eqb_spec (RemoteSensorCapability.Value sc) "true")
      as [Hvt|Hvt].
    { left. exists (occupancy c), f1. split; [simpl; tauto|].
      eapply adds_events. eapply capability_occupancy_true; eassumption. }
    destruct (String.eqb_spec (RemoteSensorCapability.Value sc) "false")
      as [Hvf|Hvf].
    { left. exists (occupancy c), f0. split; [simpl; tauto|].
      eapply adds_events. eapply capability_occupancy_false; eassumption. }
    right. eexists. eapply adds_events.
    eapply capability_occupancy_other; eassumption. }
  right. eexists. eapply adds_events. eapply capability_other; eassumption.
Qed.

Lemma Forall_sent_app {T} (P : T -> Prop) (a b : list (Event T)) :
  Forall P (sent a) -> Forall P (sent b) -> Forall P (sent (a ++ b)).
Proof.
  intros Ha Hb. rewrite sent_app. apply Forall_app. now split.
Qed.

Lemma Forall_sent_flat_map {T A} (P : T -> Prop) (f : A -> list (Event T))
    (xs : list A) :
  (forall x, In x xs -> Forall P (sent (f x))) ->
  Forall P (sent (flat_map f xs)).
Proof.
  induction xs as [|x xs IH]; intros H; simpl.
  - constructor.
  - apply Forall_sent_app.
    + apply H. now left.
    + apply IH. intros y Hy. apply H. now right.
Qed.

(** Every sample of a sensor has a sensor descriptor and the five label
    values of the sensor. *)
Lemma sensor_events_sent tFields s :
  List.length tFields = 2 ->
  Forall (fun m => In (desc m) (sensor_descs c)
                   /\ labelValues m = sensor_fields tFields s)
         (sent (sensor_events ParseFloat c tFields s)).
Proof.
  intros Hlen. unfold sensor_events. simpl sent. constructor.
  - split; [simpl; tauto|reflexivity].
  - apply Forall_sent_flat_map. intros sc _.
    assert (H5 : List.length (sensor_fields tFields s) = 5).
    { unfold sensor_fields. rewrite length_app, Hlen. reflexivity. }
    destruct (capability_events_shape _ sc H5) as [(d & v & Hd & ->)|(l & ->)].
    + simpl sent. constructor; [|constructor]. split; [|reflexivity].
      simpl in Hd. simpl. tauto.
    + simpl. constructor.
Qed.





End Thermostats.



(** The example of the specification: the raw value 705 is sent as 70.5,
    that is 141/2. *)
Example tenths_of_705 :
  fdiv (float64_of_int 705) f10 = binary_normalize prec emax 141 (-1) false.
Proof.
  reflexivity.
Qed.




(* ===================================================================== *)
(** ** Capabilities                                                        *)
(* ===================================================================== *)



(** The examples of the specification: the raw value "725" is sent as
    72.5, that is 145/2; the raw value "abc" is logged, not sent. *)
Example temperature_725 :
  capability_events Sample.ParseFloat
    (NewEcobeeCollector Sample.client_up "ecobee")
    ["311019854321"; "Home"; "rs:100"; "Bedroom"; "ecobee3_remote_sensor"]
    {| RemoteSensorCapability.Typ := "temperature";
       RemoteSensorCapability.Value := "725" |}
  = [Sent (gauge (temperature (NewEcobeeCollector Sample.client_up "ecobee"))
             (binary_normalize prec emax 145 (-1) false)
             ["311019854321"; "Home"; "rs:100"; "Bedroom";
              "ecobee3_remote_sensor"])].
Proof.
  reflexivity.
Qed.

Example temperature_abc :
  capability_events Sample.ParseFloat
    (NewEcobeeCollector Sample.client_up "ecobee")
    ["311019854321"; "Home"; "rs:100"; "Bedroom"; "ecobee3_remote_sensor"]
    {| RemoteSensorCapability.Typ := "temperature";
       RemoteSensorCapability.Value := "abc" |}
  = [Logged (log.Error "invalid syntax")].
Proof.
  reflexivity.
Qed.



(** The examples of the specification for occupancy. *)
Example occupancy_maybe :
  capability_events Sample.ParseFloat
    (NewEcobeeCollector Sample.client_up "ecobee")
    ["311019854321"; "Home"; "rs:100"; "Bedroom"; "ecobee3_remote_sensor"]
    {| RemoteSensorCapability.Typ := "occupancy";
       RemoteSensorCapability.Value := "maybe" |}
  = [Logged (log.Errorf "unknown sensor occupancy value %q" ["maybe"])].
Proof.
  reflexivity.
Qed.

(* ===================================================================== *)
(** ** Labels                                                              *)
(* ===================================================================== *)

Section Labels.

Variable ParseFloat : string -> float64 * option error.
Variable now : nat -> Time.
Variable cl : Client.
Variable prefix : string.
Variable thermostats : list Thermostat.t.
Variable summaries : list ThermostatSummary.t.

Local Abbreviation c := (NewEcobeeCollector cl prefix).
Local Abbreviation labelled :=
  (fun m => consistent m /\ well_labelled thermostats summaries m).

Lemma summary_labelled t :
  In t summaries -> Forall labelled (sent (summary_events c t)).
Proof.
  intros Hin. unfold summary_events, summary_samples. simpl.
  apply Forall_cons.
  { split; [reflexivity|]. now apply labelled_fan with t. }
  apply Forall_cons.
  { split; [reflexivity|].
    apply labelled_mode with t "cool"; [exact Hin|simpl; tauto|reflexivity]. }
  apply Forall_cons.
  { split; [reflexivity|].
    apply labelled_mode with t "heat"; [exact Hin|simpl; tauto|reflexivity]. }
  apply Forall_cons.
  { split; [reflexivity|].
    apply labelled_mode with t "aux"; [exact Hin|simpl; tauto|reflexivity]. }
  apply Forall_nil.
Qed.

Lemma thermostat_head_labelled t :
  In t thermostats -> Forall labelled (sent (thermostat_head c t)).
Proof.
  intros Hin. unfold thermostat_head.
  destruct (Runtime.Connected (Thermostat.Runtime t)); simpl.
  - do 3 (apply Forall_cons;
          [split; [reflexivity|now apply labelled_runtime with t]|]).
    apply Forall_cons; [|apply Forall_nil].
    split; [reflexivity|now apply labelled_hvac_mode with t].
  - apply Forall_nil.
Qed.

Lemma sensor_labelled t s :
  In t thermostats ->
  In s (Thermostat.RemoteSensors t) ->
  Forall labelled
         (sent (sensor_events ParseFloat c (thermostat_fields t) s)).
Proof.
  intros Ht Hs.
  eapply Forall_impl;
    [|apply (sensor_events_sent ParseFloat cl prefix (thermostat_fields t) s);
      reflexivity].
  intros m [Hd Hv]. simpl in Hd.
  assert (Hn : variableLabels (desc m)
               = ["thermostat_id"; "thermostat_name"; "sensor_id";
                  "sensor_name"; "sensor_type"]).
  { destruct Hd as [<-|[<-|[<-|[<-|[]]]]]; reflexivity. }
  split.
  - unfold consistent. rewrite Hn, Hv. reflexivity.
  - apply labelled_sensor with t s; [exact Ht|exact Hs|].
    unfold labelling. rewrite Hn, Hv. reflexivity.
Qed.

Lemma thermostat_labelled t :
  In t thermostats -> Forall labelled (sent (thermostat_events ParseFloat c t)).
Proof.
  intros Ht. unfold thermostat_events. apply Forall_sent_app.
  - now apply thermostat_head_labelled.
  - apply Forall_sent_flat_map. intros s Hs. now apply sensor_labelled.
Qed.

Lemma cycle_labelled w :
  Forall labelled
         (sent (cycle_events ParseFloat now c w thermostats summaries)).
Proof.
  unfold cycle_events, cycle_head. repeat apply Forall_sent_app.
  - simpl. apply Forall_cons; [|apply Forall_nil].
    split; [reflexivity|now apply labelled_none].
  - apply Forall_sent_flat_map. intros t Ht. now apply summary_labelled.
  - apply Forall_sent_flat_map. intros t Ht. now apply thermostat_labelled.
Qed.

End Labels.

(** The panic is a real branch of the model: with a [mode] descriptor of
    two labels the cycle panics at the first [mode] sample, after the
    [fetchTime] and [fanStatus] samples. *)
Example miswired_registry_panics :
  let r := Collect Sample.ParseFloat Sample.clock Sample.miswired
             start_world in
  snd r = Panic errInconsistentCardinality
  /\ List.length (sent (events (fst r))) = 2.
Proof.
  split; reflexivity.
Qed.

(* ===================================================================== *)
(** ** Further properties: what every cycle does                           *)
(* ===================================================================== *)

Section Cycles.

Variable ParseFloat : string -> float64 * option error.
Variable now : nat -> Time.
Variable cl : Client.
Variable prefix : string.

Local Abbreviation c := (NewEcobeeCollector cl prefix).




End Cycles.

Section Samples.

Variable ParseFloat : string -> float64 * option error.
Variable now : nat -> Time.
Variable cl : Client.
Variable prefix : string.

Local Abbreviation c := (NewEcobeeCollector cl prefix).


End Samples.

Lemma append_cancel_l (p : string) :
  forall x y : string, (p ++ x = p ++ y)%string -> x = y.
Proof.
  induction p as [|a p IH]; simpl; intros x y H.
  - exact H.
  - injection H as H. now apply IH.
Qed.

(** Two metrics of one registry have different descriptors as soon as
    their suffixes differ. *)
Lemma descs_new_suffix (p fq fq' hlp hlp' : string) (ls ls' : list string) :
  descs_new p fq hlp ls = descs_new p fq' hlp' ls' -> fq = fq'.
Proof.
  intros H. apply (f_equal fqName) in H. simpl in H.
  unfold Sprintf_s_s in H. apply append_cancel_l in H.
  now injection H.
Qed.

(** Closes a goal with a hypothesis that equates two descriptors of
    different suffixes. *)
Ltac other_desc :=
  match goal with
  | H : descs_new _ _ _ _ = descs_new _ _ _ _ |- _ =>
      apply descs_new_suffix in H; discriminate H
  end.



(** X7: for every prefix, the eleven descriptors of a registry have
    pairwise distinct names. *)
Theorem registry_names_distinct (cl : Client) (prefix : string) :
  NoDup (map fqName (described (NewEcobeeCollector cl prefix))).
Proof.
  rewrite described_eq. simpl. unfold Sprintf_s_s.
  repeat (apply NoDup_cons;
          [simpl;
           repeat (let H := fresh in
                   intros [H|H];
                   [apply append_cancel_l in H; discriminate H|revert H]);
           tauto|]).
  apply NoDup_nil.
Qed.










(* ===================================================================== *)
(** ** Further properties: sensors and capabilities                        *)
(* ===================================================================== *)










(* ===================================================================== *)
(** ** Further properties: the temperatures of a thermostat                *)
(* ===================================================================== *)

Section Tenths.

Local Open Scope Z_scope.







End Tenths.


(* ===================================================================== *)
(** ** The constructor with all its checks                                 *)
(* ===================================================================== *)

Lemma Desc_err_not_count (d : Desc) (e : error) :
  Desc_err d = Some e -> e <> errInconsistentCardinality.
Proof.
  unfold Desc_err.
  destruct (negb (IsValidMetricName (fqName d)));
    [intros H; injection H as <-; discriminate|].
  destruct (negb (forallb checkLabelName (variableLabels d)));
    [intros H; injection H as <-; discriminate|].
  destruct (has_duplicate (variableLabels d));
    [intros H; injection H as <-; discriminate|discriminate].
Qed.

Lemma run_events_seq (p k : M Metric unit) :
  returns p -> returns k ->
  run_events (p ;; k) = run_events p ++ run_events k.
Proof.
  intros Rp Rk. eapply adds_events. apply adds_seq; [exact Rp|exact Rk].
Qed.

Lemma returns_seq (p k : M Metric unit) :
  returns p -> returns k -> returns (p ;; k).
Proof.
  intros Rp Rk. eapply adds_returns. apply adds_seq; [exact Rp|exact Rk].
Qed.

Lemma refines_refl (V : Prop) (p : M Metric unit) : refines V p p.
Proof.
  intros w. split; [reflexivity|now left].
Qed.

Lemma refines_weaken (V V' : Prop) (p' p : M Metric unit) :
  (V' -> V) -> refines V p' p -> refines V' p' p.
Proof.
  intros HVV H w. destruct (H w) as [H1 H2]. split; [|exact H2].
  intros HV'. apply H1, HVV, HV'.
Qed.

Lemma refines_seq (V : Prop) (p' p k' k : M Metric unit) :
  returns p -> returns k ->
  refines V p' p -> refines V k' k ->
  refines V (p' ;; k') (p ;; k).
Proof.
  intros Rp Rk Hp Hk w.
  destruct (Hp w) as [HpV Hp2].
  destruct (Hk (record w (run_events p))) as [HkV Hk2].
  assert (Hpk : (p ;; k) w
                = (record w (run_events p ++ run_events k), Ok tt)).
  { apply adds_seq; [exact Rp|exact Rk]. }
  split.
  - intros HV. rewrite Hpk. unfold bind.
    rewrite (HpV HV), (Rp w), (HkV HV), (Rk _), record_record. reflexivity.
  - destruct Hp2 as [E|(pre & post & e & Hev & Hrun & Hne)].
    + destruct Hk2 as [E2|(pre & post & e & Hev & Hrun & Hne)].
      * left. rewrite Hpk. unfold bind.
        rewrite E, (Rp w), E2, (Rk _), record_record. reflexivity.
      * right. exists (run_events p ++ pre), post, e.
        split; [|split; [|exact Hne]].
        -- rewrite (run_events_seq _ _ Rp Rk), Hev. apply app_assoc.
        -- unfold bind. rewrite E, (Rp w), Hrun, record_record. reflexivity.
    + right. exists pre, (post ++ run_events k), e.
      split; [|split; [|exact Hne]].
      * rewrite (run_events_seq _ _ Rp Rk), Hev. symmetry. apply app_assoc.
      * unfold bind. rewrite Hrun. reflexivity.
Qed.

Lemma refines_range (V : Prop) {A} (xs : list A) (f' f : A -> M Metric unit) :
  (forall x, In x xs -> returns (f x)) ->
  (forall x, In x xs -> refines V (f' x) (f x)) ->
  refines V (range xs f') (range xs f).
Proof.
  induction xs as [|x xs IH]; intros Hr Hf; simpl.
  - apply refines_refl.
  - apply refines_seq.
    + apply Hr. now left.
    + apply returns_range. intros y Hy. apply Hr. now right.
    + apply Hf. now left.
    + apply IH; intros y Hy; [apply Hr|apply Hf]; now right.
Qed.

(** One sample, and what follows it. *)
Lemma refines_sample_then (V : Prop) (d : Desc) (v : float64)
    (lvs : list string) (k' k : M Metric unit) :
  (V -> Desc_err d = None /\ forallb ValidString lvs = true) ->
  List.length lvs = List.length (variableLabels d) ->
  returns k -> refines V k' k ->
  refines V
    (m <- MustNewConstMetric d GaugeValue v lvs ;; send m ;; k')
    (m <- MustNewConstMetric_counted d GaugeValue v lvs ;; send m ;; k).
Proof.
  intros HV Hlen Rk Hk w.
  pose proof (adds_sample_then d v lvs k _ _ Hlen Rk) as Hc.
  rewrite (adds_events _ _ _ Hc), (Hc w).
  unfold bind at 1 3. unfold MustNewConstMetric, NewConstMetric.
  destruct (Desc_err d) as [e|] eqn:Ed.
  { split.
    - intros HVp. destruct (HV HVp) as [H _]. discriminate H.
    - right. exists [], (Sent (gauge d v lvs) :: run_events k), e.
      split; [reflexivity|]. split; [|eapply Desc_err_not_count; exact Ed].
      unfold panic. now rewrite record_nil. }
  rewrite (proj2 (Nat.eqb_eq _ _) Hlen).
  destruct (forallb ValidString lvs) eqn:Eu;
    cbv beta iota zeta delta [negb ret bind send emit].
  - fold (gauge d v lvs).
    destruct (Hk (record w [Sent (gauge d v lvs)])) as [HkV Hk2].
    split.
    + intros HVp. rewrite (HkV HVp), (Rk _), record_record. reflexivity.
    + destruct Hk2 as [E|(pre & post & e & Hev & Hrun & Hne)].
      * left. rewrite E, (Rk _), record_record. reflexivity.
      * right. exists (Sent (gauge d v lvs) :: pre), post, e.
        split; [rewrite Hev; reflexivity|]. split; [|exact Hne].
        rewrite Hrun, record_record. reflexivity.
  - split.
    + intros HVp. destruct (HV HVp) as [_ H]. discriminate H.
    + right. exists [], (Sent (gauge d v lvs) :: run_events k), errInvalidUTF8.
      split; [reflexivity|]. split; [|discriminate].
      unfold panic. now rewrite record_nil.
Qed.

(** One sample at the end of a block. *)
Lemma refines_sample (V : Prop) (d : Desc) (v : float64) (lvs : list string) :
  (V -> Desc_err d = None /\ forallb ValidString lvs = true) ->
  List.length lvs = List.length (variableLabels d) ->
  refines V
    (m <- MustNewConstMetric d GaugeValue v lvs ;; send m)
    (m <- MustNewConstMetric_counted d GaugeValue v lvs ;; send m).
Proof.
  intros HV Hlen w.
  pose proof (adds_sample d v lvs Hlen) as Hc.
  rewrite (adds_events _ _ _ Hc), (Hc w).
  unfold bind at 1 2. unfold MustNewConstMetric, NewConstMetric.
  destruct (Desc_err d) as [e|] eqn:Ed.
  { split.
    - intros HVp. destruct (HV HVp) as [H _]. discriminate H.
    - right. exists [], [Sent (gauge d v lvs)], e.
      split; [reflexivity|]. split; [|eapply Desc_err_not_count; exact Ed].
      unfold panic. now rewrite record_nil. }
  rewrite (proj2 (Nat.eqb_eq _ _) Hlen).
  destruct (forallb ValidString lvs) eqn:Eu;
    cbv beta iota zeta delta [negb ret bind send emit].
  - split; [reflexivity|now left].
  - split.
    + intros HVp. destruct (HV HVp) as [_ H]. discriminate H.
    + right. exists [], [Sent (gauge d v lvs)], errInvalidUTF8.
      split; [reflexivity|]. split; [|discriminate].
      unfold panic. now rewrite record_nil.
Qed.

Lemma registry_valid_desc (c : eCollector) (d : Desc) :
  registry_valid c = true -> In d (described c) -> Desc_err d = None.
Proof.
  unfold registry_valid. rewrite forallb_forall. intros H Hin.
  specialize (H d Hin). destruct (Desc_err d); [discriminate H|reflexivity].
Qed.

Section Refinement.

Variable ParseFloat : string -> float64 * option error.
Variable now : nat -> Time.
Variable cl : Client.
Variable prefix : string.

Local Abbreviation c := (NewEcobeeCollector cl prefix).

(** Discharges the validity of one constructor call from the validity of
    the registry and of the label values. *)
Ltac valid_call :=
  let Hr := fresh "Hr" in
  let Hu := fresh "Hu" in
  intros [Hr Hu]; split;
  [ apply (registry_valid_desc c _ Hr); rewrite described_eq; simpl; tauto
  | repeat (rewrite ?forallb_app, ?andb_true_iff in *; simpl in * );
    repeat match goal with
           | H : _ /\ _ |- _ => destruct H
           end;
    repeat split; auto ].

Lemma capability_refines sFields sc :
  List.length sFields = 5 ->
  refines (registry_valid c = true /\ forallb ValidString sFields = true)
    (Strict.Collect_capability ParseFloat c sFields sc)
    (Collect_capability ParseFloat c sFields sc).
Proof.
  intros Hlen. unfold Strict.Collect_capability, Collect_capability.
  destruct (RemoteSensorCapability.Typ sc =? "temperature").
  { destruct (ParseFloat (RemoteSensorCapability.Value sc)) as [v [e|]];
      [apply refines_refl|].
    apply refines_sample; [valid_call|exact Hlen]. }
  destruct (RemoteSensorCapability.Typ sc =? "humidity").
  { destruct (ParseFloat (RemoteSensorCapability.Value sc)) as [v [e|]];
      [apply refines_refl|].
    apply refines_sample; [valid_call|exact Hlen]. }
  destruct (RemoteSensorCapability.Typ sc =? "occupancy");
    [|apply refines_refl].
  destruct (RemoteSensorCapability.Value sc =? "true").
  { apply refines_sample; [valid_call|exact Hlen]. }
  destruct (RemoteSensorCapability.Value sc =? "false");
    [|apply refines_refl].
  apply refines_sample; [valid_call|exact Hlen].
Qed.

Lemma sensor_refines tFields s :
  List.length tFields = 2 ->
  refines (registry_valid c = true
           /\ forallb ValidString tFields && sensor_utf8 s = true)
    (Strict.Collect_sensor ParseFloat c tFields s)
    (Collect_sensor ParseFloat c tFields s).
Proof.
  intros Hlen. unfold Strict.Collect_sensor, Collect_sensor. cbv zeta.
  assert (H5 : List.length
                 (tFields ++ [RemoteSensor.ID s; RemoteSensor.Name s;
                              RemoteSensor.Typ s]) = 5).
  { rewrite length_app, Hlen. reflexivity. }
  apply refines_sample_then.
  - unfold sensor_utf8. valid_call.
  - exact H5.
  - apply returns_range. intros sc _. now apply capability_returns.
  - apply refines_range.
    + intros sc _. now apply capability_returns.
    + intros sc _. eapply refines_weaken; [|now apply capability_refines].
      unfold sensor_utf8. intros [Hr Hu]. split; [exact Hr|].
      repeat (rewrite ?forallb_app, ?andb_true_iff in *; simpl in * ).
      tauto.
Qed.

Lemma runtime_refines t :
  refines (registry_valid c = true /\ thermostat_utf8 t = true)
    (Strict.Collect_runtime c (thermostat_fields t) t)
    (Collect_runtime c (thermostat_fields t) t).
Proof.
  unfold Strict.Collect_runtime, Collect_runtime, thermostat_fields,
    thermostat_utf8.
  apply refines_sample_then;
    [valid_call|reflexivity|eapply adds_returns; samples|].
  apply refines_sample_then;
    [valid_call|reflexivity|eapply adds_returns; samples|].
  apply refines_sample_then;
    [valid_call|reflexivity|eapply adds_returns; samples|].
  apply refines_sample; [valid_call|reflexivity].
Qed.

Lemma thermostat_refines t :
  refines (registry_valid c = true /\ thermostat_utf8 t = true)
    (Strict.Collect_thermostat ParseFloat c t)
    (Collect_thermostat ParseFloat c t).
Proof.
  unfold Strict.Collect_thermostat, Collect_thermostat. cbv zeta.
  apply refines_seq.
  - destruct (Runtime.Connected (Thermostat.Runtime t)).
    + eapply adds_returns. apply (runtime_adds cl prefix t).
    + eapply adds_returns. apply adds_ret.
  - apply returns_range. intros s _. now apply sensor_returns.
  - destruct (Runtime.Connected (Thermostat.Runtime t)).
    + apply runtime_refines.
    + apply refines_refl.
  - apply refines_range.
    + intros s _. now apply sensor_returns.
    + intros s Hs. eapply refines_weaken; [|now apply sensor_refines].
      unfold thermostat_utf8. intros [Hr Hu]. split; [exact Hr|].
      repeat (rewrite ?andb_true_iff in * ).
      destruct Hu as [[[Hi Hn] _] Hse].
      rewrite forallb_forall in Hse.
      simpl. rewrite Hi, Hn. simpl. split; [reflexivity|now apply Hse].
Qed.

Lemma summary_refines t :
  refines (registry_valid c = true /\ summary_utf8 t = true)
    (Strict.Collect_summary c t) (Collect_summary c t).
Proof.
  unfold Strict.Collect_summary, Collect_summary, summary_utf8. cbv zeta.
  apply refines_sample_then;
    [valid_call|reflexivity|eapply adds_returns; samples|].
  apply refines_sample_then;
    [valid_call|reflexivity|eapply adds_returns; samples|].
  apply refines_sample_then;
    [valid_call|reflexivity|eapply adds_returns; samples|].
  apply refines_sample; [valid_call|reflexivity].
Qed.

End Refinement.

Section StrictCycle.

Variable ParseFloat : string -> float64 * option error.
Variable now : nat -> Time.
Variable cl : Client.
Variable prefix : string.

Local Abbreviation c := (NewEcobeeCollector cl prefix).

(** The cycle after the second reading of the clock. *)
Lemma tail_adds v thermostats summaries :
  adds (m <- MustNewConstMetric_counted (fetchTime c) GaugeValue v [] ;;
        send m ;;
        range summaries (Collect_summary c) ;;
        range thermostats (Collect_thermostat ParseFloat c))
       (Sent (gauge (fetchTime c) v [])
        :: cycle_tail ParseFloat c thermostats summaries)
       (Ok tt).
Proof.
  apply adds_sample_then; [reflexivity|]. unfold cycle_tail.
  eapply adds_bind.
  - rewrite <- (flat_map_ext _ _ (summary_run_events cl prefix)).
    apply adds_range. intros t _. apply summary_returns.
  - rewrite <- (flat_map_ext _ _ (thermostat_run_events ParseFloat cl prefix)).
    apply adds_range. intros t _. apply thermostat_returns.
Qed.

Lemma tail_refines v thermostats summaries :
  refines (registry_valid c = true
           /\ answers_utf8 thermostats summaries = true)
    (m <- MustNewConstMetric (fetchTime c) GaugeValue v [] ;;
     send m ;;
     range summaries (Strict.Collect_summary c) ;;
     range thermostats (Strict.Collect_thermostat ParseFloat c))
    (m <- MustNewConstMetric_counted (fetchTime c) GaugeValue v [] ;;
     send m ;;
     range summaries (Collect_summary c) ;;
     range thermostats (Collect_thermostat ParseFloat c)).
Proof.
  assert (Rs : returns (range summaries (Collect_summary c))).
  { apply returns_range. intros t _. apply summary_returns. }
  assert (Rt : returns (range thermostats (Collect_thermostat ParseFloat c))).
  { apply returns_range. intros t _. apply thermostat_returns. }
  apply refines_sample_then.
  - intros [Hr _]. split; [|reflexivity].
    apply (registry_valid_desc c _ Hr). rewrite described_eq. simpl. tauto.
  - reflexivity.
  - now apply returns_seq.
  - apply refines_seq; [exact Rs|exact Rt| |].
    + apply refines_range; [intros t _; apply summary_returns|].
      intros t Ht. eapply refines_weaken; [|apply (summary_refines ParseFloat)].
      intros [Hr Hu]. split; [exact Hr|].
      unfold answers_utf8 in Hu. rewrite andb_true_iff in Hu.
      destruct Hu as [_ Hu]. rewrite forallb_forall in Hu. now apply Hu.
    + apply refines_range; [intros t _; apply thermostat_returns|].
      intros t Ht. eapply refines_weaken; [|apply thermostat_refines].
      intros [Hr Hu]. split; [exact Hr|].
      unfold answers_utf8 in Hu. rewrite andb_true_iff in Hu.
      destruct Hu as [Hu _]. rewrite forallb_forall in Hu. now apply Hu.
Qed.

(** The cycle with all the checks of the constructor, beside the cycle
    that counts the labels only: the same events and the same end when
    the registry is valid and the label values are UTF-8; in any case a
    first part of the events, and an end that is a return or a panic on
    another error than the label count. *)
Lemma Strict_Collect_runs (w : World Metric) :
  let thermostats := fst (answer_GetThermostats cl selection_registered) in
  let summaries :=
    fst (answer_GetThermostatSummary cl
           (selection_thermostats (map Thermostat.Identifier thermostats))) in
  exists evs post n r,
    Strict.Collect ParseFloat now c w = (after w evs n, r)
    /\ Collect ParseFloat now c w = (after w (evs ++ post) n, Ok tt)
    /\ (r = Ok tt /\ post = []
        \/ exists e, r = Panic e /\ e <> errInconsistentCardinality)
    /\ (registry_valid c = true ->
        answers_utf8 thermostats summaries = true ->
        r = Ok tt /\ post = []).
Proof.
  intros thermostats summaries. unfold summaries, thermostats.
  destruct (answer_GetThermostats cl selection_registered)
    as [tts [e1|]] eqn:H1.
  { exists [Called request_thermostats; Logged (log.Error e1)], [], 1, (Ok tt).
    split; [|split; [|split; [left|]; auto]].
    - unfold Strict.Collect.
      rewrite bind_time_Now, tick_start.
      rewrite (bind_adds _ _ _ _ _ (adds_GetThermostats cl _)), after_record.
      simpl client. rewrite H1.
      unfold log_Error. rewrite adds_emit, after_record. reflexivity.
    - rewrite app_nil_r. eapply Collect_first_fails. exact H1. }
  simpl fst.
  destruct (answer_GetThermostatSummary cl
              (selection_thermostats (map Thermostat.Identifier tts)))
    as [tss [e2|]] eqn:H2.
  { exists [Called request_thermostats; Called (request_summary tts);
            Logged (log.Error e2)], [], 1, (Ok tt).
    split; [|split; [|split; [left|]; auto]].
    - unfold Strict.Collect.
      rewrite bind_time_Now, tick_start.
      rewrite (bind_adds _ _ _ _ _ (adds_GetThermostats cl _)), after_record.
      simpl client. rewrite H1.
      rewrite (bind_adds _ _ _ _ _ (adds_ids _)), after_record.
      rewrite (bind_adds _ _ _ _ _ (adds_GetThermostatSummary cl _)),
        after_record.
      rewrite H2.
      unfold log_Error. rewrite adds_emit, after_record. reflexivity.
    - rewrite app_nil_r. eapply Collect_second_fails; eassumption. }
  simpl fst.
  set (v := Seconds (Sub (now (S (ticks w))) (now (ticks w)))).
  set (w2 := after w [Called request_thermostats;
                      Called (request_summary tts)] 2).
  assert (Hstrict :
    Strict.Collect ParseFloat now c w
    = (m <- MustNewConstMetric (fetchTime c) GaugeValue v [] ;;
       send m ;;
       range tss (Strict.Collect_summary c) ;;
       range tts (Strict.Collect_thermostat ParseFloat c)) w2).
  { unfold Strict.Collect.
    rewrite bind_time_Now, tick_start.
    rewrite (bind_adds _ _ _ _ _ (adds_GetThermostats cl _)), after_record.
    simpl client. rewrite H1.
    rewrite (bind_adds _ _ _ _ _ (adds_ids _)), after_record.
    rewrite (bind_adds _ _ _ _ _ (adds_GetThermostatSummary cl _)),
      after_record.
    rewrite H2.
    rewrite bind_time_Now, tick_after. reflexivity. }
  assert (Hcounted :
    Collect ParseFloat now c w
    = (after w
         ([Called request_thermostats; Called (request_summary tts)]
          ++ Sent (gauge (fetchTime c) v [])
             :: cycle_tail ParseFloat c tts tss) 2, Ok tt)).
  { rewrite (Collect_succeeds _ _ _ _ _ _ H1 H2). reflexivity. }
  destruct (tail_refines v tts tss w2) as [HV Hcases].
  rewrite (tail_adds v tts tss w2) in HV, Hcases.
  rewrite (adds_events _ _ _ (tail_adds v tts tss)) in Hcases.
  destruct Hcases as [E|(pre & post & e & Hev & Hrun & Hne)].
  - exists ([Called request_thermostats; Called (request_summary tts)]
            ++ Sent (gauge (fetchTime c) v [])
               :: cycle_tail ParseFloat c tts tss), [], 2, (Ok tt).
    split; [|split; [|split; [left|]; auto]].
    + rewrite Hstrict, E. unfold w2. rewrite after_record. reflexivity.
    + rewrite app_nil_r. exact Hcounted.
  - exists ([Called request_thermostats; Called (request_summary tts)] ++ pre),
      post, 2, (Panic e).
    split; [|split; [|split]].
    + rewrite Hstrict, Hrun. unfold w2. rewrite after_record. reflexivity.
    + rewrite Hcounted, <- app_assoc, <- Hev. reflexivity.
    + right. exists e. split; [reflexivity|exact Hne].
    + intros Hr Hu. specialize (HV (conj Hr Hu)).
      rewrite Hrun in HV. discriminate HV.
Qed.

(** Every sample of a cycle is labelled as its descriptor declares. *)
Lemma Collect_labelled (w : World Metric) :
  let thermostats := fst (answer_GetThermostats cl selection_registered) in
  let summaries :=
    fst (answer_GetThermostatSummary cl
           (selection_thermostats (map Thermostat.Identifier thermostats))) in
  forall evs n r,
    Collect ParseFloat now c w = (after w evs n, r) ->
    Forall (fun m => consistent m /\ well_labelled thermostats summaries m)
           (sent evs).
Proof.
  intros thermostats summaries evs n r H.
  assert (Hevs : forall evs' n', 
             Collect ParseFloat now c w = (after w evs' n', Ok tt) ->
             evs = evs').
  { intros evs' n' H'. rewrite H in H'. injection H' as H' _ _.
    now apply app_inv_head in H'. }
  unfold summaries, thermostats.
  destruct (answer_GetThermostats cl selection_registered)
    as [tts [e1|]] eqn:H1.
  { rewrite (Hevs _ _ (Collect_first_fails _ _ _ _ _ _ H1 w)). constructor. }
  simpl fst.
  destruct (answer_GetThermostatSummary cl
              (selection_thermostats (map Thermostat.Identifier tts)))
    as [tss [e2|]] eqn:H2.
  { rewrite (Hevs _ _ (Collect_second_fails _ _ _ _ _ _ _ H1 H2 w)).
    constructor. }
  simpl fst.
  rewrite (Hevs _ _ (Collect_succeeds _ _ _ _ _ _ H1 H2 w)).
  apply cycle_labelled.
Qed.

End StrictCycle.

(** C9, as the specification states it, fails: with the prefix
    [my-ecobee] the name of the [fetchTime] descriptor is not a valid
    metric name, and the constructor panics on the first sample of the
    cycle, whose labels are as declared (it has none). *)
Lemma invalid_prefix_panics_counterexample :
  let c := NewEcobeeCollector Sample.client_up "my-ecobee" in
  let r := Strict.Collect Sample.ParseFloat Sample.clock c start_world in
  fqName (fetchTime c) = "my-ecobee_fetch_time"
  /\ IsValidMetricName (fqName (fetchTime c)) = false
  /\ List.length (@nil string) = List.length (variableLabels (fetchTime c))
  /\ snd r = Panic errInvalidMetricName
  /\ sent (events (fst r)) = [].
Proof.
  repeat split; reflexivity.
Qed.

(** C9 (amended): in every cycle, every sample that Collect sends carries
    as many label values as its descriptor declares label names, each
    value under the name it belongs to: no label for [fetchTime];
    [thermostat_id, thermostat_name] with the identifier and the name of
    a thermostat for the thermostat and fan samples; a third label
    [current_hvac_mode] or [mode] where the descriptor declares one;
    [sensor_id, sensor_name, sensor_type] after the first two for the
    sensor samples.  So the constructor never panics on the number of
    labels; and it does not panic at all, the cycle returns, when the
    descriptors of the registry are valid and the label values that the
    API answered are valid UTF-8.  (The constructor has its other checks:
    a cycle may end in a panic on an invalid descriptor or on a label
    value that is not UTF-8.) *)
Theorem labels_match_schema
    (ParseFloat : string -> float64 * option error) (now : nat -> Time)
    (cl : Client) (prefix : string) (w : World Metric) :
  let c := NewEcobeeCollector cl prefix in
  let thermostats := fst (answer_GetThermostats cl selection_registered) in
  let summaries :=
    fst (answer_GetThermostatSummary cl
           (selection_thermostats (map Thermostat.Identifier thermostats))) in
  (exists evs n r,
      Strict.Collect ParseFloat now c w = (after w evs n, r)
      /\ Forall (fun m => consistent m
                          /\ well_labelled thermostats summaries m)
                (sent evs)
      /\ r <> Panic errInconsistentCardinality
      /\ (registry_valid c = true ->
          answers_utf8 thermostats summaries = true ->
          r = Ok tt))
  /\ map variableLabels (described c)
     = [ [];
         ["thermostat_id"; "thermostat_name"];
         ["thermostat_id"; "thermostat_name"];
         ["thermostat_id"; "thermostat_name"];
         ["thermostat_id"; "thermostat_name";
          "sensor_id"; "sensor_name"; "sensor_type"];
         ["thermostat_id"; "thermostat_name";
          "sensor_id"; "sensor_name"; "sensor_type"];
         ["thermostat_id"; "thermostat_name";
          "sensor_id"; "sensor_name"; "sensor_type"];
         ["thermostat_id"; "thermostat_name";
          "sensor_id"; "sensor_name"; "sensor_type"];
         ["thermostat_id"; "thermostat_name"; "current_hvac_mode"];
         ["thermostat_id"; "thermostat_name"];
         ["thermostat_id"; "thermostat_name"; "mode"] ].
Proof.
  intros c thermostats summaries. split; [|reflexivity].
  destruct (Strict_Collect_runs ParseFloat now cl prefix w)
    as (evs & post & n & r & Hs & Hc & Hr & HV).
  exists evs, n, r. split; [exact Hs|]. split; [|split].
  - pose proof (Collect_labelled ParseFloat now cl prefix w _ _ _ Hc) as HF.
    rewrite sent_app in HF. apply Forall_app in HF. exact (proj1 HF).
  - destruct Hr as [[-> _]|(e & -> & Hne)]; [discriminate|].
    intros E. injection E as E. exact (Hne E).
  - intros H1 H2. exact (proj1 (HV H1 H2)).
Qed.

Lemma labels_match_schema_witness :
  let c := NewEcobeeCollector Sample.client_up "ecobee" in
  registry_valid c = true
  /\ answers_utf8 [Sample.home; Sample.cabin] [Sample.home_summary] = true
  /\ exists evs n,
       Strict.Collect Sample.ParseFloat Sample.clock c start_world
       = (after start_world evs n, Ok tt)
       /\ Forall (fun m =>
                    consistent m
                    /\ well_labelled [Sample.home; Sample.cabin]
                         [Sample.home_summary] m)
                 (sent evs).
Proof.
  split; [reflexivity|]. split; [reflexivity|].
  destruct (labels_match_schema Sample.ParseFloat Sample.clock
              Sample.client_up "ecobee" start_world)
    as [(evs & n & r & Hs & HF & _ & HV) _].
  exists evs, n. split; [|exact HF].
  rewrite Hs. f_equal. apply HV; reflexivity.
Defined.


